(** * lplrs2018: fluid reward system firmware

    A shallow embedding of the interrupt service routines of the sketch
    [lplrs2018.ino] (Arduino Mega 2560) together with the small part of the
    microcontroller they talk to: the timer/counter registers, the external
    interrupt flags and the five pins the sketch uses.

    The file is organised as follows.
    - constants and tables of the sketch;
    - the machine state: program globals, special function registers, pins;
    - a tiny statement language (assignment, [|=], [&=], [IF]) whose terms are
      state transformers, so that every routine reads like its C text;
    - the nine interrupt service routines and the statements of [loop()] that
      start a flow-calibration trial;
    - the hardware that surrounds them: counters that tick, flags that are
      raised on compare match or pin change, interrupt dispatch;
    - runs of the machine, in two forms: every interleaving of actions, and
      the schedule of the real machine with service by priority;
    - the trigger arbiter cut out of the routines as a small machine;
    - the properties of the controller: the arbiter invariant, deactivation,
      the hit and hold stages, activation on an open valve, the drain counter,
      timers that share a counter, the calibration flag, and the counts of
      pulses, ticks and drain cycles;
    - the controller on the real machine at rest: debounce of the manual
      trigger and of the panel button, the digital trigger, the stages of the
      output, the lamp, the drain watchdog and what calibration does to it,
      the service of interrupts, the writers of the flags, the synthetic
      trigger, and the idle machine. *)

From Stdlib Require Import ZArith Bool List Lia.
Import ListNotations.
Local Open Scope Z_scope.
#[local] Set Warnings "-abstract-large-number".

(** ** Constants of the sketch *)

Definition hitVoltage : Z := 255.
Definition holdVoltage : Z := 85.
Definition maxDrainCycles : Z := 200.

(** The flow-calibration table of [loop()]. *)
Definition openTime : list Z := [40; 60; 80; 100; 120; 140; 160; 180; 200; 220].
Definition numOpens : list Z := [63; 42; 31; 25; 21; 18; 16; 14; 13; 11].

(** Compare-match values written once by [setup()] and never changed. *)
Definition OCR1A : Z := 15624.
Definition OCR1B : Z := 15624.
Definition OCR2A : Z := 124.
Definition OCR2B : Z := 124.
Definition OCR4A : Z := 6249.
Definition OCR5A : Z := 249.

(** Bit numbers of the ATmega2560 device header used by the sketch: interrupt
    enable bits in [TIMSKn], compare-match flags in [TIFRn] and external
    interrupt flags in [EIFR]. *)
Definition OCIE1A : Z := 1.
Definition OCIE1B : Z := 2.
Definition OCIE2A : Z := 1.
Definition OCIE2B : Z := 2.
Definition OCIE4A : Z := 1.
Definition OCIE5A : Z := 1.
Definition OCF1A : Z := 1.
Definition OCF1B : Z := 2.
Definition OCF2A : Z := 1.
Definition OCF2B : Z := 2.
Definition OCF4A : Z := 1.
Definition OCF5A : Z := 1.
Definition INTF3 : Z := 3.
Definition INTF4 : Z := 4.
Definition INTF5 : Z := 5.

(** [unsigned int] is sixteen bits wide on this target. *)
Definition uint (z : Z) : Z := z mod 65536.

Notation "a << b" := (Z.shiftl a b) (at level 30, no associativity) : Z_scope.

(** ** Pins *)

Inductive pin : Set :=
  | __manualTrigger   (* D2 *)
  | __digitalTrigger  (* D3 *)
  | __panelButton     (* D18 *)
  | __valvePower      (* D5 *)
  | __LED.            (* D9 *)

Inductive pin_mode : Set := INPUT | OUTPUT | INPUT_PULLUP.

Definition HIGH : bool := true.
Definition LOW : bool := false.

(** One pin of the board: direction bit, output latch, the level the outside
    circuit (button, pull resistor, signal source) imposes on the pad, and the
    duty value last given to [analogWrite]. *)
Record pad : Type := Pad {
  ddr : bool;
  port : bool;
  line : bool;
  duty : Z
}.

(** The level seen at the pad: the latch when the pin drives, the outside
    circuit otherwise. *)
Definition level (p : pad) : bool := if ddr p then port p else line p.

(** ** Machine state *)

Record globals : Type := Globals {
  g_manualTrigger : bool;
  g_digitalTrigger : bool;
  g_draining : bool;
  g_valveOpen : bool;
  g_inCalibration : bool;
  g_sequenceComplete : bool;
  g_tickCounter : Z;
  g_maxTicks : Z;
  g_releaseCount : Z;
  g_maxReleases : Z;
  g_drainCycles : Z
}.

Definition g_manualTrigger_put (v : bool) (x : globals) : globals :=
  Globals v (g_digitalTrigger x) (g_draining x) (g_valveOpen x) (g_inCalibration x)
    (g_sequenceComplete x) (g_tickCounter x) (g_maxTicks x) (g_releaseCount x) (g_maxReleases x)
    (g_drainCycles x).
Definition g_digitalTrigger_put (v : bool) (x : globals) : globals :=
  Globals (g_manualTrigger x) v (g_draining x) (g_valveOpen x) (g_inCalibration x)
    (g_sequenceComplete x) (g_tickCounter x) (g_maxTicks x) (g_releaseCount x) (g_maxReleases x)
    (g_drainCycles x).
Definition g_draining_put (v : bool) (x : globals) : globals :=
  Globals (g_manualTrigger x) (g_digitalTrigger x) v (g_valveOpen x) (g_inCalibration x)
    (g_sequenceComplete x) (g_tickCounter x) (g_maxTicks x) (g_releaseCount x) (g_maxReleases x)
    (g_drainCycles x).
Definition g_valveOpen_put (v : bool) (x : globals) : globals :=
  Globals (g_manualTrigger x) (g_digitalTrigger x) (g_draining x) v (g_inCalibration x)
    (g_sequenceComplete x) (g_tickCounter x) (g_maxTicks x) (g_releaseCount x) (g_maxReleases x)
    (g_drainCycles x).
Definition g_inCalibration_put (v : bool) (x : globals) : globals :=
  Globals (g_manualTrigger x) (g_digitalTrigger x) (g_draining x) (g_valveOpen x) v
    (g_sequenceComplete x) (g_tickCounter x) (g_maxTicks x) (g_releaseCount x) (g_maxReleases x)
    (g_drainCycles x).
Definition g_sequenceComplete_put (v : bool) (x : globals) : globals :=
  Globals (g_manualTrigger x) (g_digitalTrigger x) (g_draining x) (g_valveOpen x)
    (g_inCalibration x) v (g_tickCounter x) (g_maxTicks x) (g_releaseCount x) (g_maxReleases x)
    (g_drainCycles x).
Definition g_tickCounter_put (v : Z) (x : globals) : globals :=
  Globals (g_manualTrigger x) (g_digitalTrigger x) (g_draining x) (g_valveOpen x)
    (g_inCalibration x) (g_sequenceComplete x) v (g_maxTicks x) (g_releaseCount x)
    (g_maxReleases x) (g_drainCycles x).
Definition g_maxTicks_put (v : Z) (x : globals) : globals :=
  Globals (g_manualTrigger x) (g_digitalTrigger x) (g_draining x) (g_valveOpen x)
    (g_inCalibration x) (g_sequenceComplete x) (g_tickCounter x) v (g_releaseCount x)
    (g_maxReleases x) (g_drainCycles x).
Definition g_releaseCount_put (v : Z) (x : globals) : globals :=
  Globals (g_manualTrigger x) (g_digitalTrigger x) (g_draining x) (g_valveOpen x)
    (g_inCalibration x) (g_sequenceComplete x) (g_tickCounter x) (g_maxTicks x) v (g_maxReleases
    x) (g_drainCycles x).
Definition g_maxReleases_put (v : Z) (x : globals) : globals :=
  Globals (g_manualTrigger x) (g_digitalTrigger x) (g_draining x) (g_valveOpen x)
    (g_inCalibration x) (g_sequenceComplete x) (g_tickCounter x) (g_maxTicks x) (g_releaseCount
    x) v (g_drainCycles x).
Definition g_drainCycles_put (v : Z) (x : globals) : globals :=
  Globals (g_manualTrigger x) (g_digitalTrigger x) (g_draining x) (g_valveOpen x)
    (g_inCalibration x) (g_sequenceComplete x) (g_tickCounter x) (g_maxTicks x) (g_releaseCount
    x) (g_maxReleases x) v.

Record sfr : Type := Sfr {
  r_TIMSK1 : Z;
  r_TIMSK2 : Z;
  r_TIMSK4 : Z;
  r_TIMSK5 : Z;
  r_TIFR1 : Z;
  r_TIFR2 : Z;
  r_TIFR4 : Z;
  r_TIFR5 : Z;
  r_TCNT1 : Z;
  r_TCNT2 : Z;
  r_TCNT4 : Z;
  r_TCNT5 : Z;
  r_EIFR : Z
}.

Definition r_TIMSK1_put (v : Z) (x : sfr) : sfr :=
  Sfr v (r_TIMSK2 x) (r_TIMSK4 x) (r_TIMSK5 x) (r_TIFR1 x) (r_TIFR2 x) (r_TIFR4 x) (r_TIFR5 x)
    (r_TCNT1 x) (r_TCNT2 x) (r_TCNT4 x) (r_TCNT5 x) (r_EIFR x).
Definition r_TIMSK2_put (v : Z) (x : sfr) : sfr :=
  Sfr (r_TIMSK1 x) v (r_TIMSK4 x) (r_TIMSK5 x) (r_TIFR1 x) (r_TIFR2 x) (r_TIFR4 x) (r_TIFR5 x)
    (r_TCNT1 x) (r_TCNT2 x) (r_TCNT4 x) (r_TCNT5 x) (r_EIFR x).
Definition r_TIMSK4_put (v : Z) (x : sfr) : sfr :=
  Sfr (r_TIMSK1 x) (r_TIMSK2 x) v (r_TIMSK5 x) (r_TIFR1 x) (r_TIFR2 x) (r_TIFR4 x) (r_TIFR5 x)
    (r_TCNT1 x) (r_TCNT2 x) (r_TCNT4 x) (r_TCNT5 x) (r_EIFR x).
Definition r_TIMSK5_put (v : Z) (x : sfr) : sfr :=
  Sfr (r_TIMSK1 x) (r_TIMSK2 x) (r_TIMSK4 x) v (r_TIFR1 x) (r_TIFR2 x) (r_TIFR4 x) (r_TIFR5 x)
    (r_TCNT1 x) (r_TCNT2 x) (r_TCNT4 x) (r_TCNT5 x) (r_EIFR x).
Definition r_TIFR1_put (v : Z) (x : sfr) : sfr :=
  Sfr (r_TIMSK1 x) (r_TIMSK2 x) (r_TIMSK4 x) (r_TIMSK5 x) v (r_TIFR2 x) (r_TIFR4 x) (r_TIFR5 x)
    (r_TCNT1 x) (r_TCNT2 x) (r_TCNT4 x) (r_TCNT5 x) (r_EIFR x).
Definition r_TIFR2_put (v : Z) (x : sfr) : sfr :=
  Sfr (r_TIMSK1 x) (r_TIMSK2 x) (r_TIMSK4 x) (r_TIMSK5 x) (r_TIFR1 x) v (r_TIFR4 x) (r_TIFR5 x)
    (r_TCNT1 x) (r_TCNT2 x) (r_TCNT4 x) (r_TCNT5 x) (r_EIFR x).
Definition r_TIFR4_put (v : Z) (x : sfr) : sfr :=
  Sfr (r_TIMSK1 x) (r_TIMSK2 x) (r_TIMSK4 x) (r_TIMSK5 x) (r_TIFR1 x) (r_TIFR2 x) v (r_TIFR5 x)
    (r_TCNT1 x) (r_TCNT2 x) (r_TCNT4 x) (r_TCNT5 x) (r_EIFR x).
Definition r_TIFR5_put (v : Z) (x : sfr) : sfr :=
  Sfr (r_TIMSK1 x) (r_TIMSK2 x) (r_TIMSK4 x) (r_TIMSK5 x) (r_TIFR1 x) (r_TIFR2 x) (r_TIFR4 x) v
    (r_TCNT1 x) (r_TCNT2 x) (r_TCNT4 x) (r_TCNT5 x) (r_EIFR x).
Definition r_TCNT1_put (v : Z) (x : sfr) : sfr :=
  Sfr (r_TIMSK1 x) (r_TIMSK2 x) (r_TIMSK4 x) (r_TIMSK5 x) (r_TIFR1 x) (r_TIFR2 x) (r_TIFR4 x)
    (r_TIFR5 x) v (r_TCNT2 x) (r_TCNT4 x) (r_TCNT5 x) (r_EIFR x).
Definition r_TCNT2_put (v : Z) (x : sfr) : sfr :=
  Sfr (r_TIMSK1 x) (r_TIMSK2 x) (r_TIMSK4 x) (r_TIMSK5 x) (r_TIFR1 x) (r_TIFR2 x) (r_TIFR4 x)
    (r_TIFR5 x) (r_TCNT1 x) v (r_TCNT4 x) (r_TCNT5 x) (r_EIFR x).
Definition r_TCNT4_put (v : Z) (x : sfr) : sfr :=
  Sfr (r_TIMSK1 x) (r_TIMSK2 x) (r_TIMSK4 x) (r_TIMSK5 x) (r_TIFR1 x) (r_TIFR2 x) (r_TIFR4 x)
    (r_TIFR5 x) (r_TCNT1 x) (r_TCNT2 x) v (r_TCNT5 x) (r_EIFR x).
Definition r_TCNT5_put (v : Z) (x : sfr) : sfr :=
  Sfr (r_TIMSK1 x) (r_TIMSK2 x) (r_TIMSK4 x) (r_TIMSK5 x) (r_TIFR1 x) (r_TIFR2 x) (r_TIFR4 x)
    (r_TIFR5 x) (r_TCNT1 x) (r_TCNT2 x) (r_TCNT4 x) v (r_EIFR x).
Definition r_EIFR_put (v : Z) (x : sfr) : sfr :=
  Sfr (r_TIMSK1 x) (r_TIMSK2 x) (r_TIMSK4 x) (r_TIMSK5 x) (r_TIFR1 x) (r_TIFR2 x) (r_TIFR4 x)
    (r_TIFR5 x) (r_TCNT1 x) (r_TCNT2 x) (r_TCNT4 x) (r_TCNT5 x) v.

Record board : Type := Board {
  p_D2 : pad;
  p_D3 : pad;
  p_D18 : pad;
  p_D5 : pad;
  p_D9 : pad
}.

Definition p_D2_put (v : pad) (x : board) : board :=
  Board v (p_D3 x) (p_D18 x) (p_D5 x) (p_D9 x).
Definition p_D3_put (v : pad) (x : board) : board :=
  Board (p_D2 x) v (p_D18 x) (p_D5 x) (p_D9 x).
Definition p_D18_put (v : pad) (x : board) : board :=
  Board (p_D2 x) (p_D3 x) v (p_D5 x) (p_D9 x).
Definition p_D5_put (v : pad) (x : board) : board :=
  Board (p_D2 x) (p_D3 x) (p_D18 x) v (p_D9 x).
Definition p_D9_put (v : pad) (x : board) : board :=
  Board (p_D2 x) (p_D3 x) (p_D18 x) (p_D5 x) v.

Record state : Type := State {
  ram : globals;   (* the volatile globals of the sketch *)
  io : sfr;        (* timer and interrupt registers *)
  pins : board     (* the five pads in use *)
}.

(** An assignable location: how to read it and what a store to it does. *)
Record lval (A : Type) : Type := LVal {
  rd :> state -> A;
  wr : A -> state -> state
}.
Arguments LVal {A}.
Arguments rd {A}.
Arguments wr {A}.

Definition global {A : Type} (get : globals -> A) (put : A -> globals -> globals) : lval A :=
  LVal (fun s => get (ram s)) (fun v s => State (put v (ram s)) (io s) (pins s)).

Definition register (get : sfr -> Z) (put : Z -> sfr -> sfr) : lval Z :=
  LVal (fun s => get (io s)) (fun v s => State (ram s) (put v (io s)) (pins s)).

(** A flag register as the program sees it: storing a one in a bit position
    clears that flag, storing a zero leaves it alone. *)
Definition flag_register (get : sfr -> Z) (put : Z -> sfr -> sfr) : lval Z :=
  LVal (fun s => get (io s))
       (fun v s => State (ram s) (put (Z.ldiff (get (io s)) v) (io s)) (pins s)).

Definition manualTrigger : lval bool := global g_manualTrigger g_manualTrigger_put.
Definition digitalTrigger : lval bool := global g_digitalTrigger g_digitalTrigger_put.
Definition draining : lval bool := global g_draining g_draining_put.
Definition valveOpen : lval bool := global g_valveOpen g_valveOpen_put.
Definition inCalibration : lval bool := global g_inCalibration g_inCalibration_put.
Definition sequenceComplete : lval bool := global g_sequenceComplete g_sequenceComplete_put.
Definition tickCounter : lval Z := global g_tickCounter g_tickCounter_put.
Definition maxTicks : lval Z := global g_maxTicks g_maxTicks_put.
Definition releaseCount : lval Z := global g_releaseCount g_releaseCount_put.
Definition maxReleases : lval Z := global g_maxReleases g_maxReleases_put.
Definition drainCycles : lval Z := global g_drainCycles g_drainCycles_put.

Definition TIMSK1 : lval Z := register r_TIMSK1 r_TIMSK1_put.
Definition TIMSK2 : lval Z := register r_TIMSK2 r_TIMSK2_put.
Definition TIMSK4 : lval Z := register r_TIMSK4 r_TIMSK4_put.
Definition TIMSK5 : lval Z := register r_TIMSK5 r_TIMSK5_put.
Definition TCNT1 : lval Z := register r_TCNT1 r_TCNT1_put.
Definition TCNT2 : lval Z := register r_TCNT2 r_TCNT2_put.
Definition TCNT4 : lval Z := register r_TCNT4 r_TCNT4_put.
Definition TCNT5 : lval Z := register r_TCNT5 r_TCNT5_put.
Definition TIFR1 : lval Z := flag_register r_TIFR1 r_TIFR1_put.
Definition TIFR2 : lval Z := flag_register r_TIFR2 r_TIFR2_put.
Definition TIFR4 : lval Z := flag_register r_TIFR4 r_TIFR4_put.
Definition TIFR5 : lval Z := flag_register r_TIFR5 r_TIFR5_put.

(** The same flag registers as the hardware sees them: plain latches. *)
Definition latch_TIFR1 : lval Z := register r_TIFR1 r_TIFR1_put.
Definition latch_TIFR2 : lval Z := register r_TIFR2 r_TIFR2_put.
Definition latch_TIFR4 : lval Z := register r_TIFR4 r_TIFR4_put.
Definition latch_TIFR5 : lval Z := register r_TIFR5 r_TIFR5_put.
Definition latch_EIFR : lval Z := register r_EIFR r_EIFR_put.

Definition pad_of (p : pin) : lval pad :=
  let at_pin (get : board -> pad) (put : pad -> board -> board) :=
    LVal (fun s => get (pins s)) (fun v s => State (ram s) (io s) (put v (pins s))) in
  match p with
  | __manualTrigger => at_pin p_D2 p_D2_put
  | __digitalTrigger => at_pin p_D3 p_D3_put
  | __panelButton => at_pin p_D18 p_D18_put
  | __valvePower => at_pin p_D5 p_D5_put
  | __LED => at_pin p_D9 p_D9_put
  end.

(** The power delivered to the solenoid gate. *)
Definition output (s : state) : Z := duty (pad_of __valvePower s).

(** ** Statements *)

Definition cmd : Type := state -> state.

(** Conditions may have side effects ([++x], [x++]), so an expression returns
    its value together with the state it leaves behind. *)
Definition expr (A : Type) : Type := state -> A * state.

Definition load {A : Type} (x : lval A) : expr A := fun s => (rd x s, s).
Coercion load : lval >-> expr.
Definition const (z : Z) : expr Z := fun s => (z, s).
Coercion const : Z >-> expr.

Definition NOT (e : expr bool) : expr bool :=
  fun s => let (b, s1) := e s in (negb b, s1).
(** [&&] evaluates its right operand only when the left one is true. *)
Definition AND (e1 e2 : expr bool) : expr bool :=
  fun s => let (b, s1) := e1 s in if b then e2 s1 else (false, s1).
Definition LT (e1 e2 : expr Z) : expr bool :=
  fun s => let (x, s1) := e1 s in let (y, s2) := e2 s1 in (x <? y, s2).
Definition GT (e1 e2 : expr Z) : expr bool :=
  fun s => let (x, s1) := e1 s in let (y, s2) := e2 s1 in (x >? y, s2).
(** [++x] and [x++] on an [unsigned int]. *)
Definition PREINC (x : lval Z) : expr Z :=
  fun s => let v := uint (x s + 1) in (v, wr x v s).
Definition POSTINC (x : lval Z) : expr Z :=
  fun s => (x s, wr x (uint (x s + 1)) s).

Definition skip : cmd := fun s => s.
Definition seq (c1 c2 : cmd) : cmd := fun s => c2 (c1 s).
Definition ite (e : expr bool) (c1 c2 : cmd) : cmd :=
  fun s => let (b, s1) := e s in if b then c1 s1 else c2 s1.
Definition assign {A : Type} (x : lval A) (v : A) : cmd := wr x v.
Definition or_assign (x : lval Z) (v : Z) : cmd := fun s => wr x (Z.lor (x s) v) s.
Definition and_assign (x : lval Z) (v : Z) : cmd := fun s => wr x (Z.land (x s) v) s.

Declare Scope c_scope.
Delimit Scope c_scope with C.
Bind Scope c_scope with cmd.
Notation "c1 ;; c2" := (seq c1 c2) (at level 90, right associativity) : c_scope.
Notation "x ::= v" := (assign x v) (at level 80, no associativity) : c_scope.
Notation "x |= v" := (or_assign x v) (at level 80, no associativity) : c_scope.
Notation "x &= v" := (and_assign x v) (at level 80, no associativity) : c_scope.
Notation "'IF' e 'THEN' c1 'ELSE' c2 'FI'" := (ite e c1 c2)
  (at level 0, e at level 70, c1 at level 200, c2 at level 200) : c_scope.
Notation "'IF' e 'THEN' c1 'FI'" := (ite e c1 skip)
  (at level 0, e at level 70, c1 at level 200) : c_scope.
Notation "! e" := (NOT e) (at level 35, right associativity) : c_scope.
Notation "e1 &&& e2" := (AND e1 e2) (at level 40, left associativity) : c_scope.
Notation "e1 .< e2" := (LT e1 e2) (at level 38, no associativity) : c_scope.
Notation "e1 .> e2" := (GT e1 e2) (at level 38, no associativity) : c_scope.
Notation "'++' x" := (PREINC x) (at level 30, x at level 9) : c_scope.
Notation "x '+++'" := (POSTINC x) (at level 1, format "x +++") : c_scope.

(** ** Pin operations of the Arduino core *)

(** The hardware sets a request flag when its condition [c] holds. *)
Definition raise (c : bool) (flags : lval Z) (bit : Z) : cmd :=
  fun s => wr flags (if c then Z.lor (flags s) (1 << bit) else flags s) s.

(** The edge detectors of the three external interrupts, as [setup()]
    configures them: INT3 on a falling edge of D18, INT4 and INT5 on any change
    of D2 and D3. *)
Definition sense (p : pin) (before : bool) : cmd :=
  fun s =>
    let now := level (pad_of p s) in
    match p with
    | __panelButton => raise (before && negb now) latch_EIFR INTF3 s
    | __manualTrigger => raise (xorb before now) latch_EIFR INTF4 s
    | __digitalTrigger => raise (xorb before now) latch_EIFR INTF5 s
    | __valvePower | __LED => s
    end.

Definition drive (p : pin) (f : pad -> pad) : cmd :=
  fun s => sense p (level (pad_of p s)) (wr (pad_of p) (f (pad_of p s)) s).

Definition pinMode (p : pin) (m : pin_mode) : cmd :=
  drive p (fun x =>
    match m with
    | OUTPUT => Pad true (port x) (line x) (duty x)
    | INPUT => Pad false false (line x) (duty x)
    | INPUT_PULLUP => Pad false true (line x) (duty x)
    end).

Definition digitalWrite (p : pin) (v : bool) : cmd :=
  drive p (fun x => Pad (ddr x) v (line x) (duty x)).

Definition analogWrite (p : pin) (v : Z) : cmd :=
  fun s => wr (pad_of p) (let x := pad_of p s in Pad (ddr x) (port x) (line x) v) s.

Definition digitalRead (p : pin) : expr bool :=
  fun s => (level (pad_of p s), s).

(** The outside circuit changes the level it imposes on a pin. *)
Definition wire (p : pin) (v : bool) : cmd :=
  drive p (fun x => Pad (ddr x) (port x) v (duty x)).

(** ** Interrupt service routines *)

Local Open Scope c_scope.

(** INT3 (pin D18, panel button): start the debounce delay. *)
Definition INT3_vect : cmd :=
  TIFR2 ::= (1 << OCF2B) ;;
  TCNT2 ::= 0 ;;
  TIMSK2 |= (1 << OCIE2B).

(** INT4 (pin D2, manual trigger): start the debounce delay. *)
Definition INT4_vect : cmd :=
  TIFR2 ::= (1 << OCF2A) ;;
  TCNT2 ::= 0 ;;
  TIMSK2 |= (1 << OCIE2A).

(** INT5 (pin D3, digital trigger): decode the level and control the valve. *)
Definition INT5_vect : cmd :=
  IF digitalRead __digitalTrigger THEN
    IF ! digitalTrigger THEN
      digitalTrigger ::= true ;;
      IF ! valveOpen THEN
        valveOpen ::= true ;;
        analogWrite __valvePower hitVoltage ;;
        digitalWrite __LED HIGH ;;
        TIFR4 ::= (1 << OCF4A) ;;
        TCNT4 ::= 0 ;;
        TIMSK4 |= (1 << OCIE4A)
      FI
    FI
  ELSE
    IF digitalTrigger THEN
      digitalTrigger ::= false ;;
      IF ! draining &&& ! manualTrigger THEN
        valveOpen ::= false ;;
        analogWrite __valvePower 0 ;;
        digitalWrite __LED LOW
      FI
    FI
  FI.

(** TIMER1 compare A, 1 Hz: deactivate drain. *)
Definition TIMER1_COMPA_vect : cmd :=
  IF draining &&& ++drainCycles .> maxDrainCycles THEN
    TIMSK1 &= (0 << OCIE1A) ;;
    draining ::= false ;;
    IF ! manualTrigger &&& ! digitalTrigger THEN
      valveOpen ::= false ;;
      analogWrite __valvePower 0 ;;
      digitalWrite __LED LOW
    FI
  FI.

(** TIMER1 compare B, 1 Hz: check the release count in calibration mode. *)
Definition TIMER1_COMPB_vect : cmd :=
  IF ++releaseCount .< maxReleases THEN
    tickCounter ::= 0 ;;
    pinMode __digitalTrigger OUTPUT ;;
    digitalWrite __digitalTrigger HIGH ;;
    TIFR5 ::= (1 << OCF5A) ;;
    TCNT5 ::= 0 ;;
    TIMSK5 |= (1 << OCIE5A)
  ELSE
    TIMSK1 &= (0 << OCIE1B) ;;
    sequenceComplete ::= true ;;
    pinMode __digitalTrigger INPUT
  FI.

(** TIMER2 compare A, 8 ms: debounce the manual trigger. *)
Definition TIMER2_COMPA_vect : cmd :=
  TIMSK2 &= (0 << OCIE2A) ;;
  IF ! digitalRead __manualTrigger THEN
    IF ! manualTrigger THEN
      manualTrigger ::= true ;;
      IF ! valveOpen THEN
        valveOpen ::= true ;;
        analogWrite __valvePower hitVoltage ;;
        digitalWrite __LED HIGH ;;
        TIFR4 ::= (1 << OCF4A) ;;
        TCNT4 ::= 0 ;;
        TIMSK4 |= (1 << OCIE4A)
      FI
    FI
  ELSE
    IF manualTrigger THEN
      manualTrigger ::= false ;;
      IF ! draining &&& ! digitalTrigger THEN
        valveOpen ::= false ;;
        analogWrite __valvePower 0 ;;
        digitalWrite __LED LOW
      FI
    FI
  FI.

(** TIMER2 compare B, 8 ms: debounce the panel button. *)
Definition TIMER2_COMPB_vect : cmd :=
  TIMSK2 &= (0 << OCIE2B) ;;
  IF ! digitalRead __panelButton THEN
    IF ! draining THEN
      IF ! valveOpen THEN
        draining ::= true ;;
        drainCycles ::= 0 ;;
        valveOpen ::= true ;;
        analogWrite __valvePower hitVoltage ;;
        digitalWrite __LED HIGH ;;
        TIFR1 ::= (1 << OCF1A) ;;
        TCNT1 ::= 0 ;;
        TIMSK1 |= (1 << OCIE1A) ;;
        TIFR4 ::= (1 << OCF4A) ;;
        TCNT4 ::= 0 ;;
        TIMSK4 |= (1 << OCIE4A)
      FI
    ELSE
      TIMSK1 &= (0 << OCIE1A) ;;
      draining ::= false ;;
      IF ! manualTrigger &&& ! digitalTrigger THEN
        valveOpen ::= false ;;
        analogWrite __valvePower 0 ;;
        digitalWrite __LED LOW
      FI
    FI
  FI.

(** TIMER4 compare A, 25 ms: transition to hold voltage. *)
Definition TIMER4_COMPA_vect : cmd :=
  TIMSK4 &= (0 << OCIE4A) ;;
  IF valveOpen THEN analogWrite __valvePower holdVoltage FI.

(** TIMER5 compare A, 1 kHz: deactivate the test release after [maxTicks]. *)
Definition TIMER5_COMPA_vect : cmd :=
  IF tickCounter+++ .> maxTicks THEN
    TIMSK5 &= (0 << OCIE5A) ;;
    digitalWrite __digitalTrigger LOW
  FI.

(** ** The statements of [setup()] and [loop()] that touch the model *)

Definition setup : cmd :=
  pinMode __manualTrigger INPUT_PULLUP ;;
  pinMode __digitalTrigger INPUT ;;
  pinMode __panelButton INPUT_PULLUP ;;
  pinMode __LED OUTPUT ;;
  digitalWrite __LED LOW ;;
  pinMode __valvePower OUTPUT ;;
  analogWrite __valvePower 0 ;;
  TCNT1 ::= 0 ;;
  TCNT2 ::= 0 ;;
  TCNT4 ::= 0 ;;
  TCNT5 ::= 0.

(** Flow calibration, the body of the inner loop up to the busy wait, for a
    pulse length of [ticks] and [count] releases. *)
Definition start_sequence (ticks count : Z) : cmd :=
  maxTicks ::= uint ticks ;;
  releaseCount ::= 0 ;;
  maxReleases ::= uint count ;;
  sequenceComplete ::= false ;;
  TCNT1 ::= 0 ;;
  TIMSK1 |= (1 << OCIE1B).

Local Close Scope c_scope.

(** ** The hardware around the routines *)

Inductive timer : Set := Timer1 | Timer2 | Timer4 | Timer5.

(** One count of a timer in clear-on-compare mode: a compare flag is raised
    when the counter equals its compare register, and the counter restarts
    from zero after reaching [top] (or when it overflows its width). *)
Definition count (TCNT flags : lval Z) (modulus top : Z) (compare : list (Z * Z)) : cmd :=
  fun s =>
    let c := TCNT s in
    let s1 := fold_left (fun s' m => raise (c =? fst m) flags (snd m) s') compare s in
    wr TCNT (if (c =? top) || (c + 1 =? modulus) then 0 else c + 1) s1.

Definition clock (t : timer) : cmd :=
  match t with
  | Timer1 => count TCNT1 latch_TIFR1 65536 OCR1A [(OCR1A, OCF1A); (OCR1B, OCF1B)]
  | Timer2 => count TCNT2 latch_TIFR2 256 OCR2A [(OCR2A, OCF2A); (OCR2B, OCF2B)]
  | Timer4 => count TCNT4 latch_TIFR4 65536 OCR4A [(OCR4A, OCF4A)]
  | Timer5 => count TCNT5 latch_TIFR5 65536 OCR5A [(OCR5A, OCF5A)]
  end.

(** The counter of a timer and the value at which it restarts. *)
Definition counter (t : timer) : lval Z :=
  match t with
  | Timer1 => TCNT1
  | Timer2 => TCNT2
  | Timer4 => TCNT4
  | Timer5 => TCNT5
  end.

Definition top (t : timer) : Z :=
  match t with
  | Timer1 => OCR1A
  | Timer2 => OCR2A
  | Timer4 => OCR4A
  | Timer5 => OCR5A
  end.

(** A timer counts on until its next compare match.  With the compare
    values of [setup()] every compare register of a timer equals its top
    value, so nothing happens on the way: the counter reaches the top, the
    next count raises the flags and restarts it.  [period_is_clocks] shows
    that this is what the right number of [clock] steps does. *)
Definition period (t : timer) : cmd :=
  fun s => clock t (wr (counter t) (top t) s).

(** The interrupt vectors of the sketch, named as in the source and listed
    from the highest priority to the lowest. *)
Inductive vector : Set :=
  | INT3 | INT4 | INT5
  | TIMER2_COMPA | TIMER2_COMPB
  | TIMER1_COMPA | TIMER1_COMPB
  | TIMER4_COMPA | TIMER5_COMPA.

Definition vectors : list vector :=
  [INT3; INT4; INT5; TIMER2_COMPA; TIMER2_COMPB;
   TIMER1_COMPA; TIMER1_COMPB; TIMER4_COMPA; TIMER5_COMPA].

Definition isr (v : vector) : cmd :=
  match v with
  | INT3 => INT3_vect
  | INT4 => INT4_vect
  | INT5 => INT5_vect
  | TIMER2_COMPA => TIMER2_COMPA_vect
  | TIMER2_COMPB => TIMER2_COMPB_vect
  | TIMER1_COMPA => TIMER1_COMPA_vect
  | TIMER1_COMPB => TIMER1_COMPB_vect
  | TIMER4_COMPA => TIMER4_COMPA_vect
  | TIMER5_COMPA => TIMER5_COMPA_vect
  end.

(** Where the request flag of a vector lives. *)
Definition flag_of (v : vector) : lval Z * Z :=
  match v with
  | INT3 => (latch_EIFR, INTF3)
  | INT4 => (latch_EIFR, INTF4)
  | INT5 => (latch_EIFR, INTF5)
  | TIMER2_COMPA => (latch_TIFR2, OCF2A)
  | TIMER2_COMPB => (latch_TIFR2, OCF2B)
  | TIMER1_COMPA => (latch_TIFR1, OCF1A)
  | TIMER1_COMPB => (latch_TIFR1, OCF1B)
  | TIMER4_COMPA => (latch_TIFR4, OCF4A)
  | TIMER5_COMPA => (latch_TIFR5, OCF5A)
  end.

(** Whether a vector is unmasked.  [setup()] unmasks the three external
    interrupts and nothing masks them again; the timer interrupts are
    switched through their [TIMSKn] bits. *)
Definition enabled (v : vector) (s : state) : bool :=
  match v with
  | INT3 | INT4 | INT5 => true
  | TIMER2_COMPA => Z.testbit (TIMSK2 s) OCIE2A
  | TIMER2_COMPB => Z.testbit (TIMSK2 s) OCIE2B
  | TIMER1_COMPA => Z.testbit (TIMSK1 s) OCIE1A
  | TIMER1_COMPB => Z.testbit (TIMSK1 s) OCIE1B
  | TIMER4_COMPA => Z.testbit (TIMSK4 s) OCIE4A
  | TIMER5_COMPA => Z.testbit (TIMSK5 s) OCIE5A
  end.

Definition requested (v : vector) (s : state) : bool :=
  Z.testbit (fst (flag_of v) s) (snd (flag_of v)).

Definition pending (v : vector) (s : state) : bool :=
  requested v s && enabled v s.

(** Entering a routine clears its request flag. *)
Definition acknowledge (v : vector) : cmd :=
  fun s => wr (fst (flag_of v)) (Z.ldiff (fst (flag_of v) s) (1 << snd (flag_of v))) s.

(** A routine runs to completion: interrupts stay disabled inside it. *)
Definition interrupt (v : vector) : cmd :=
  fun s => if pending v s then isr v (acknowledge v s) else s.

(** The statements of [loop()] that write shared state, one at a time, so
    that an interrupt may fall between any two of them. *)
Inductive statement : Set :=
  | write_inCalibration (v : bool)
  | write_maxTicks (j : nat)
  | write_releaseCount
  | write_maxReleases (j : nat)
  | write_sequenceComplete
  | write_TCNT1
  | enable_TIMER1_COMPB
  | write_LED (v : bool).

Definition execute (m : statement) : cmd :=
  match m with
  | write_inCalibration v => assign inCalibration v
  | write_maxTicks j => assign maxTicks (uint (nth j openTime 0))
  | write_releaseCount => assign releaseCount 0
  | write_maxReleases j => assign maxReleases (uint (nth j numOpens 0))
  | write_sequenceComplete => assign sequenceComplete false
  | write_TCNT1 => assign TCNT1 0
  | enable_TIMER1_COMPB => or_assign TIMSK1 (1 << OCIE1B)
  | write_LED v => digitalWrite __LED v
  end.

(** ** Runs *)

(** Everything that can happen to the machine: the outside circuit moves a
    pin, a timer counts once or counts on to its next compare match, a pending
    interrupt is served, the main loop executes a statement.  A run is any
    sequence of such actions; no order of service among pending interrupts
    and no relative speed of the timers is assumed. *)
Inductive action : Set :=
  | Wire (p : pin) (v : bool)
  | Clock (t : timer)
  | Period (t : timer)
  | Serve (v : vector)
  | Main (m : statement).

Definition act (a : action) : cmd :=
  match a with
  | Wire p v => wire p v
  | Clock t => clock t
  | Period t => period t
  | Serve v => interrupt v
  | Main m => execute m
  end.

Definition run (tr : list action) (s : state) : state :=
  fold_left (fun s' a => act a s') tr s.

(** An action other than the shorthand [Period]. *)
Definition plain (a : action) : Prop :=
  match a with
  | Period _ => False
  | Wire _ _ | Clock _ | Serve _ | Main _ => True
  end.

(** The machine at power-on: globals as initialised by their declarations,
    registers cleared, buttons released and the trigger line pulled down. *)
Definition power_on : state :=
  State (Globals false false false false false false 0 0 0 0 0)
        (Sfr 0 0 0 0 0 0 0 0 0 0 0 0 0)
        (Board (Pad false false true 0) (Pad false false false 0) (Pad false false true 0)
               (Pad false false false 0) (Pad false false false 0)).

Definition boot : state := setup power_on.

(** *** The schedule of the real machine *)

(** The pending interrupt with the highest priority, if any. *)
Definition next (s : state) : option vector := find (fun v => pending v s) vectors.

Fixpoint service (fuel : nat) (s : state) : state :=
  match fuel with
  | O => s
  | S fuel' =>
      match next s with
      | Some v => service fuel' (interrupt v s)
      | None => s
      end
  end.

(** An action followed by the service of every interrupt it made pending. *)
Definition step (a : action) (s : state) : state := service 16 (act a s).

Definition steps (tr : list action) (s : state) : state :=
  fold_left (fun s' a => step a s') tr s.

(** Machine time, one millisecond at a time, on the schedule the four
    timers keep once their counters have been started together: timer 5
    matches every millisecond, timer 2 every 8 ms, timer 4 every 25 ms and
    timer 1 every second. *)
Definition millisecond (i : Z) : list action :=
  Period Timer5 ::
  (if i mod 8 =? 0 then [Period Timer2] else []) ++
  (if i mod 25 =? 0 then [Period Timer4] else []) ++
  (if i mod 1000 =? 0 then [Period Timer1] else []).

(** The [n] milliseconds that start with millisecond number [i]. *)
Fixpoint milliseconds (n : nat) (i : Z) : list action :=
  match n with
  | O => []
  | S n' => millisecond i ++ milliseconds n' (i + 1)
  end.

(** The statements that start trial [j] of the calibration table, in program
    order. *)
Definition start_trial (j : nat) : list action :=
  [Main (write_maxTicks j); Main write_releaseCount; Main (write_maxReleases j);
   Main write_sequenceComplete; Main write_TCNT1; Main enable_TIMER1_COMPB].

(** ** Vocabulary of the properties *)

(** The valve is closed: the state flag is down and no power is applied. *)
Definition closed (s : state) : Prop := valveOpen s = false /\ output s = 0.

(** The hold-transition timer is armed for a full delay. *)
Definition hold_timer_armed (s : state) : Prop :=
  enabled TIMER4_COMPA s = true /\ requested TIMER4_COMPA s = false /\ TCNT4 s = 0.

(** The number of counts of its timer after which the compare flag of a
    timer vector is raised next. *)
Definition deadline (v : vector) (s : state) : Z :=
  match v with
  | TIMER1_COMPA => OCR1A + 1 - TCNT1 s
  | TIMER1_COMPB => OCR1B + 1 - TCNT1 s
  | TIMER2_COMPA => OCR2A + 1 - TCNT2 s
  | TIMER2_COMPB => OCR2B + 1 - TCNT2 s
  | TIMER4_COMPA => OCR4A + 1 - TCNT4 s
  | TIMER5_COMPA => OCR5A + 1 - TCNT5 s
  | INT3 | INT4 | INT5 => 0
  end.

(** Every counter stays between zero and its top value. *)
Definition counters_ok (s : state) : Prop :=
  forall t : timer, 0 <= counter t s <= top t.

(** The hardware timer a vector belongs to. *)
Definition timer_of (v : vector) : option timer :=
  match v with
  | TIMER1_COMPA | TIMER1_COMPB => Some Timer1
  | TIMER2_COMPA | TIMER2_COMPB => Some Timer2
  | TIMER4_COMPA => Some Timer4
  | TIMER5_COMPA => Some Timer5
  | INT3 | INT4 | INT5 => None
  end.

(** Two states that differ at most in the value of [inCalibration]. *)
Definition alike (s1 s2 : state) : Prop :=
  wr inCalibration false s1 = wr inCalibration false s2.

(** Counting the rising and falling edges of a signal along a run of the real
    machine, observed after every action. *)
Definition watch (sig : state -> bool) (a : action) (x : state * (Z * Z)) : state * (Z * Z) :=
  let '(s, (up, down)) := x in
  let s' := step a s in
  (s', (if negb (sig s) && sig s' then up + 1 else up,
        if sig s && negb (sig s') then down + 1 else down)).

Definition watching (sig : state -> bool) (tr : list action) (x : state * (Z * Z)) :
  state * (Z * Z) :=
  fold_left (fun y a => watch sig a y) tr x.

(** The synthetic trigger: the level of pin D3. *)
Definition trigger_line (s : state) : bool := level (pad_of __digitalTrigger s).

(** *** Scenarios *)

(** One second of idle time after [setup()]: the compare flags are raised
    and stay pending because nothing is enabled to clear them. *)
Definition idle : state := steps (milliseconds 1000 1) boot.

(** 8 ms of timer 2: the debounce delay. *)
Definition debounce : list action := [Period Timer2].

(** One second of timer 1: a coarse tick. *)
Definition coarse_tick : list action := [Period Timer1].

(** 25 ms of timer 4: the hold delay. *)
Definition hold_delay : list action := [Period Timer4].

(** The panel button is pressed and the press is debounced. *)
Definition press_panel : list action := Wire __panelButton LOW :: debounce.

(** *** The arbiter as a small machine *)

(** The part of the state the trigger arbiter and the drain watchdog work
    on: the three source flags, the valve flag, the power on the gate and the
    drain counter. *)
Record arbiter : Type := Arbiter {
  manual : bool;
  digital : bool;
  drain : bool;
  valve : bool;
  power : Z;
  cycles : Z
}.

Definition view (s : state) : arbiter :=
  Arbiter (manualTrigger s) (digitalTrigger s) (draining s) (valveOpen s)
          (output s) (drainCycles s).

(** What an action means to the arbiter: a debounced sample of the manual
    trigger or of the panel button, a decoded level of the digital trigger, a
    coarse tick, the end of the hold delay, or nothing at all. *)
Inductive move : Set :=
  | Stay
  | ManualSettled (pressed : bool)
  | DigitalDecoded (high : bool)
  | PanelSettled (pressed : bool)
  | CoarseTick
  | HoldDelay.

Definition move_of (a : action) (s : state) : move :=
  match a with
  | Serve v =>
      if pending v s then
        match v with
        | INT5 => DigitalDecoded (level (pad_of __digitalTrigger s))
        | TIMER2_COMPA => ManualSettled (negb (level (pad_of __manualTrigger s)))
        | TIMER2_COMPB => PanelSettled (negb (level (pad_of __panelButton s)))
        | TIMER1_COMPA => CoarseTick
        | TIMER4_COMPA => HoldDelay
        | INT3 | INT4 | TIMER1_COMPB | TIMER5_COMPA => Stay
        end
      else Stay
  | Wire _ _ | Clock _ | Period _ | Main _ => Stay
  end.

(** The routines of the sketch, cut down to the arbiter's variables. *)
Definition arbitrate (m : move) (x : arbiter) : arbiter :=
  let '(Arbiter mt dt dr vo out dc) := x in
  match m with
  | Stay => x
  | ManualSettled true =>
      if mt then x
      else if vo then Arbiter true dt dr vo out dc
      else Arbiter true dt dr true hitVoltage dc
  | ManualSettled false =>
      if mt then
        if negb dr && negb dt then Arbiter false dt dr false 0 dc
        else Arbiter false dt dr vo out dc
      else x
  | DigitalDecoded true =>
      if dt then x
      else if vo then Arbiter mt true dr vo out dc
      else Arbiter mt true dr true hitVoltage dc
  | DigitalDecoded false =>
      if dt then
        if negb dr && negb mt then Arbiter mt false dr false 0 dc
        else Arbiter mt false dr vo out dc
      else x
  | PanelSettled true =>
      if dr then
        if negb mt && negb dt then Arbiter mt dt false false 0 dc
        else Arbiter mt dt false vo out dc
      else if vo then x
      else Arbiter mt dt true true hitVoltage 0
  | PanelSettled false => x
  | CoarseTick =>
      if dr then
        let dc' := uint (dc + 1) in
        if dc' >? maxDrainCycles then
          if negb mt && negb dt then Arbiter mt dt false false 0 dc'
          else Arbiter mt dt false vo out dc'
        else Arbiter mt dt dr vo out dc'
      else x
  | HoldDelay => if vo then Arbiter mt dt dr vo holdVoltage dc else x
  end.

(** The arbiter's bookkeeping is consistent: the valve is open exactly when
    some source holds it open, and the output is the hit or the hold level
    when open and zero when closed. *)
Definition consistent (x : arbiter) : Prop :=
  valve x = manual x || digital x || drain x /\
  (if valve x then power x = hitVoltage \/ power x = holdVoltage else power x = 0).

Definition arbiter_ok (s : state) : Prop := consistent (view s).

(** *** The backlog of the interrupt controller *)

(** What a pending request costs: serving an external interrupt requests
    nothing new, serving a timer routine may request INT5 by moving the
    trigger pin. *)
Definition weight (v : vector) : Z :=
  match v with
  | INT3 | INT4 | INT5 => 1
  | TIMER2_COMPA | TIMER2_COMPB | TIMER1_COMPA | TIMER1_COMPB
  | TIMER4_COMPA | TIMER5_COMPA => 2
  end.

Definition owed (v : vector) (s : state) : Z := if requested v s then weight v else 0.

Definition backlog (s : state) : Z :=
  owed INT3 s + owed INT4 s + owed INT5 s + owed TIMER2_COMPA s + owed TIMER2_COMPB s +
  owed TIMER1_COMPA s + owed TIMER1_COMPB s + owed TIMER4_COMPA s + owed TIMER5_COMPA s.

(** *** Statements that turn out not to hold *)

(** Activating a source while the valve is open leaves the output alone and
    sets the flag of that source, for each of the three sources. *)
Definition activation_when_open_sets_flag : Prop :=
  forall tr : list action,
    let s := run tr boot in
    valveOpen s = true ->
    (pending TIMER2_COMPA s = true -> level (pad_of __manualTrigger s) = LOW ->
     let s' := act (Serve TIMER2_COMPA) s in
     output s' = output s /\ manualTrigger s' = true) /\
    (pending INT5 s = true -> level (pad_of __digitalTrigger s) = HIGH ->
     let s' := act (Serve INT5) s in
     output s' = output s /\ digitalTrigger s' = true) /\
    (pending TIMER2_COMPB s = true -> level (pad_of __panelButton s) = LOW ->
     draining s = false ->
     let s' := act (Serve TIMER2_COMPB) s in
     output s' = output s /\ draining s' = true).

(** Every step that drops the drain flag resets the drain counter. *)
Definition drain_end_resets_counter : Prop :=
  forall (tr : list action) (a : action),
    let s := run tr boot in
    let s' := act a s in
    draining s = true -> draining s' = false -> drainCycles s' = 0.




(** *** More scenarios, as runs with explicit service *)

(** The manual trigger is pressed and debounced, which opens the valve; then
    the panel button is pressed and its debounce delay elapses. *)
Definition manual_then_panel : list action :=
  [Wire __manualTrigger LOW; Serve INT4] ++ debounce ++
  [Serve TIMER2_COMPA; Wire __panelButton LOW; Serve INT3] ++ debounce.

(** A drain session is started from the panel, lasts one coarse tick, and the
    panel button is pressed again. *)
Definition drain_one_tick_then_panel : list action :=
  [Wire __panelButton LOW; Serve INT3] ++ debounce ++ [Serve TIMER2_COMPB] ++
  coarse_tick ++ [Serve TIMER1_COMPA] ++
  [Wire __panelButton HIGH; Wire __panelButton LOW; Serve INT3] ++ debounce.


(** The manual trigger is pressed and its debounce delay elapses. *)
Definition manual_edge_settling : list action :=
  [Wire __manualTrigger LOW; Serve INT4] ++ debounce.

(** The manual trigger has opened the valve and has been released; the
    release is settling. *)
Definition manual_release_settling : list action :=
  manual_edge_settling ++ [Serve TIMER2_COMPA; Wire __manualTrigger HIGH; Serve INT4] ++
  debounce.

(** The digital trigger line went high, was decoded, and has just gone low. *)
Definition digital_falling : list action :=
  [Wire __digitalTrigger HIGH; Serve INT5; Wire __digitalTrigger LOW].

(** The panel button has been pressed with the valve closed; the press is
    settling. *)
Definition panel_edge_settling : list action :=
  [Wire __panelButton LOW; Serve INT3] ++ debounce.

(** The manual trigger has opened the valve and the hold delay of 25 ms has
    elapsed. *)
Definition hit_phase_over : list action :=
  manual_edge_settling ++ [Serve TIMER2_COMPA] ++ hold_delay.

(** The digital trigger holds the valve open while a press of the manual
    trigger settles. *)
Definition manual_settling_while_open : list action :=
  [Wire __digitalTrigger HIGH; Serve INT5] ++ manual_edge_settling.

(** The manual trigger holds the valve open when the digital trigger line
    goes high. *)
Definition digital_rising_while_open : list action :=
  manual_edge_settling ++ [Serve TIMER2_COMPA; Wire __digitalTrigger HIGH].

(** Trial [j] of the calibration table, started on the idle machine and
    followed for [n] milliseconds: the final state with the number of
    assertions and of deassertions of the synthetic trigger seen on the
    way. *)
Definition follow_trial (j : nat) (n : nat) : state * (Z * Z) :=
  watching trigger_line (start_trial j ++ milliseconds n 1) (idle, (0, 0)).

(** *** The machine at rest, contacts and lamps *)

(** No interrupt is pending: the processor is back in the main loop. *)
Definition quiet (s : state) : Prop := next s = None.

(** The rank of a vector in the order of service, zero being served first. *)
Definition priority (v : vector) : nat :=
  match v with
  | INT3 => 0
  | INT4 => 1
  | INT5 => 2
  | TIMER2_COMPA => 3
  | TIMER2_COMPB => 4
  | TIMER1_COMPA => 5
  | TIMER1_COMPB => 6
  | TIMER4_COMPA => 7
  | TIMER5_COMPA => 8
  end.

(** The pins that no routine reconfigures keep the direction [setup()] gave
    them: the manual trigger and the panel button are inputs, the lamp is an
    output. *)
Definition pins_ok (s : state) : Prop :=
  ddr (pad_of __manualTrigger s) = false /\
  ddr (pad_of __panelButton s) = false /\
  ddr (pad_of __LED s) = true.

(** The status lamp: the level of pin D9. *)
Definition lamp (s : state) : bool := level (pad_of __LED s).




(** Kinds of actions. *)
Definition writes_LED (a : action) : bool :=
  match a with
  | Main (write_LED _) => true
  | _ => false
  end.

Definition arms_sequencer (a : action) : bool :=
  match a with
  | Main enable_TIMER1_COMPB => true
  | _ => false
  end.

Definition is_main (a : action) : bool :=
  match a with
  | Main _ => true
  | _ => false
  end.

Definition settles_panel (a : action) : bool :=
  match a with
  | Serve TIMER2_COMPB => true
  | _ => false
  end.

(** A drain session is running and its watchdog is switched off. *)
Definition unguarded (s : state) : Prop :=
  draining s = true /\ enabled TIMER1_COMPA s = false.

(** A calibration sequence is unfinished and its 1 Hz routine is switched
    off. *)
Definition stalled (s : state) : Prop :=
  sequenceComplete s = false /\ enabled TIMER1_COMPB s = false.

Definition ticks_only (a : action) : bool :=
  match a with
  | Clock _ | Period _ => true
  | Wire _ _ | Serve _ | Main _ => false
  end.

(** The machine at power-on with the contacts in any position: the lines of
    the manual trigger, the digital trigger and the panel button are at the
    levels given. *)
Definition power_up (l2 l3 l18 : bool) : state :=
  State (Globals false false false false false false 0 0 0 0 0)
        (Sfr 0 0 0 0 0 0 0 0 0 0 0 0 0)
        (Board (Pad false false l2 0) (Pad false false l3 0) (Pad false false l18 0)
               (Pad false false false 0) (Pad false false false 0)).

(** Nothing can interrupt: every timer interrupt is disabled and no external
    interrupt is requested. *)
Definition asleep (s : state) : Prop :=
  forall v : vector,
    match timer_of v with
    | Some _ => enabled v s = false
    | None => requested v s = false
    end.

(** * Properties *)

(** ** Proof tools *)

(** Name every component of a state. *)
Ltac open_state s :=
  destruct s as [[? ? ? ? ? ? ? ? ? ? ?] [? ? ? ? ? ? ? ? ? ? ? ? ?]
                 [[? ? ? ?] [? ? ? ?] [? ? ? ?] [? ? ? ?] [? ? ? ?]]].

(** Run the model symbolically, leaving integer operations alone. *)
Ltac eval_model :=
  cbv -[Z.lor Z.land Z.ldiff Z.testbit Z.shiftl Z.add Z.sub Z.modulo Z.eqb Z.ltb Z.gtb
        Z.lt Z.le Z.gt Z.ge] in *.

(** Decide the boolean variables a goal branches on, then the remaining
    tests. *)
Ltac split_bools :=
  repeat (match goal with
          | |- context [if ?b then _ else _] => is_var b; destruct b
          end; cbv beta iota).

Ltac split_tests :=
  repeat (match goal with
          | |- context [if ?b then _ else _] => destruct b eqn:?
          end; cbv beta iota).

Ltac by_cases s := open_state s; eval_model; split_bools; split_tests.

(** Decide the integer equality tests of a goal, keeping the facts. *)
Ltac split_eqbs :=
  repeat (match goal with
          | |- context [?x =? ?y] => destruct (Z.eqb_spec x y)
          end; cbv beta iota).

(** ** Runs *)

Lemma run_app (tr1 tr2 : list action) (s : state) :
  run (tr1 ++ tr2) s = run tr2 (run tr1 s).
Proof. unfold run. apply fold_left_app. Qed.

Lemma run_snoc (tr : list action) (a : action) (s : state) :
  run (tr ++ [a]) s = act a (run tr s).
Proof. rewrite run_app. reflexivity. Qed.

(** A property that holds after [setup()] and survives every action holds
    all along every run. *)
Lemma run_invariant (P : state -> Prop) :
  P boot -> (forall a s, P s -> P (act a s)) -> forall tr, P (run tr boot).
Proof.
  intros Hboot Hact tr. induction tr as [| a tr IH] using rev_ind.
  - exact Hboot.
  - rewrite run_snoc. apply Hact, IH.
Qed.

(** The real machine only ever follows one of the runs: serving interrupts
    by priority is a particular choice of [Serve] actions. *)
Lemma service_is_run (fuel : nat) (s : state) :
  exists tr, service fuel s = run tr s.
Proof.
  revert s. induction fuel as [| fuel IH]; intros s; cbn [service].
  - exists []. reflexivity.
  - destruct (next s) as [v |].
    + destruct (IH (interrupt v s)) as [tr Htr].
      exists (Serve v :: tr). rewrite Htr. reflexivity.
    + exists []. reflexivity.
Qed.

Lemma step_is_run (a : action) (s : state) : exists tr, step a s = run tr s.
Proof.
  unfold step. destruct (service_is_run 16 (act a s)) as [tr Htr].
  exists (a :: tr). rewrite Htr. reflexivity.
Qed.

Lemma steps_is_run (tr : list action) (s : state) : exists tr', steps tr s = run tr' s.
Proof.
  revert s. induction tr as [| a tr IH]; intros s.
  - exists []. reflexivity.
  - change (steps (a :: tr) s) with (steps tr (step a s)).
    destruct (step_is_run a s) as [tr1 H1].
    destruct (IH (step a s)) as [tr2 H2].
    exists (tr1 ++ tr2). rewrite run_app, <- H1. exact H2.
Qed.

(** Watching a signal does not disturb the run. *)
Lemma watching_state (sig : state -> bool) (tr : list action) (x : state * (Z * Z)) :
  fst (watching sig tr x) = steps tr (fst x).
Proof.
  unfold watching. revert x. induction tr as [| a tr IH]; intros x.
  - reflexivity.
  - cbn [fold_left]. rewrite IH. destruct x as [s [up down]]. reflexivity.
Qed.

(** The statements of [start_trial], run back to back, are the C text of the
    loop body. *)
Lemma start_trial_is_start_sequence (j : nat) (s : state) :
  run (start_trial j) s = start_sequence (nth j openTime 0) (nth j numOpens 0) s.
Proof. reflexivity. Qed.

(** ** Register bits *)

Lemma testbit_set (x n m : Z) :
  0 <= n -> Z.testbit (Z.lor x (1 << n)) m = Z.testbit x m || (n =? m).
Proof.
  intros Hn. rewrite Z.lor_spec, Z.shiftl_1_l, Z.pow2_bits_eqb by exact Hn. reflexivity.
Qed.

Lemma testbit_clear (x n m : Z) :
  0 <= n -> Z.testbit (Z.ldiff x (1 << n)) m = Z.testbit x m && negb (n =? m).
Proof.
  intros Hn. rewrite Z.ldiff_spec, Z.shiftl_1_l, Z.pow2_bits_eqb by exact Hn. reflexivity.
Qed.

Lemma testbit_mask_off (x n m : Z) : Z.testbit (Z.land x (0 << n)) m = false.
Proof. rewrite Z.shiftl_0_l, Z.land_0_r. apply Z.testbit_0_l. Qed.

(** Simplify the bit tests left by a symbolic run of the model. *)
Ltac bits :=
  repeat first
    [ rewrite testbit_set by (cbv; discriminate)
    | rewrite testbit_clear by (cbv; discriminate)
    | rewrite testbit_mask_off ];
  cbn [Z.eqb Pos.eqb negb orb andb];
  rewrite ?orb_true_r, ?orb_false_r, ?andb_true_r, ?andb_false_r.

(** ** Counting on to the compare match *)

Lemma counters_ok_boot : counters_ok boot.
Proof. intros []; vm_compute; split; discriminate. Qed.

Lemma counters_ok_act (a : action) (s : state) : counters_ok s -> counters_ok (act a s).
Proof.
  intros H t'.
  pose proof (H Timer1) as H1. pose proof (H Timer2) as H2.
  pose proof (H Timer4) as H4. pose proof (H Timer5) as H5. clear H.
  destruct a as [p v | t | t | v | m].
  - destruct p, t'; by_cases s; lia.
  - destruct t, t'; open_state s; eval_model; split_eqbs; lia.
  - destruct t, t'; open_state s; eval_model; split_eqbs; lia.
  - unfold act, interrupt. destruct (pending v s).
    + destruct v, t'; by_cases s; lia.
    + destruct t'; assumption.
  - destruct m, t'; by_cases s; lia.
Qed.

Lemma counters_ok_run (tr : list action) : counters_ok (run tr boot).
Proof. apply run_invariant; [exact counters_ok_boot | exact counters_ok_act]. Qed.

(** Below the top value a count only increments the counter. *)
Lemma clock_below_top (t : timer) (s : state) :
  0 <= counter t s < top t -> clock t s = wr (counter t) (counter t s + 1) s.
Proof.
  destruct t; open_state s; eval_model; intros H; split_eqbs;
    try lia; reflexivity.
Qed.

Lemma clock_at_top (t : timer) (s : state) :
  counter t s = top t -> clock t s = period t s.
Proof.
  unfold period. intros H. rewrite <- H. destruct t; open_state s; reflexivity.
Qed.

Lemma period_forgets_counter (t : timer) (c : Z) (s : state) :
  period t (wr (counter t) c s) = period t s.
Proof. destruct t; open_state s; reflexivity. Qed.

Lemma counter_wr (t : timer) (c : Z) (s : state) : counter t (wr (counter t) c s) = c.
Proof. destruct t; open_state s; reflexivity. Qed.

(** [period] is what the counts up to and through the next compare match
    do, one [clock] at a time. *)
Lemma period_is_clocks (t : timer) (n : nat) (s : state) :
  counter t s = top t - Z.of_nat n -> 0 <= counter t s ->
  period t s = run (repeat (Clock t) (S n)) s.
Proof.
  revert s. induction n as [| n IH]; intros s Hc H0.
  - cbn [repeat run fold_left act]. symmetry. apply clock_at_top. lia.
  - change (run (repeat (Clock t) (S (S n))) s)
      with (run (repeat (Clock t) (S n)) (clock t s)).
    rewrite clock_below_top by lia.
    rewrite <- IH.
    + symmetry. apply period_forgets_counter.
    + rewrite counter_wr. lia.
    + rewrite counter_wr. lia.
Qed.

(** On any state of a run, [Period] is a shorthand for a number of [Clock]
    actions. *)
Lemma period_is_run (t : timer) (tr : list action) :
  let s := run tr boot in
  exists n : nat, act (Period t) s = run (repeat (Clock t) n) s.
Proof.
  intros s. destruct (counters_ok_run tr t) as [H0 H1]. fold s in H0, H1.
  exists (S (Z.to_nat (top t - counter t s))).
  apply period_is_clocks; [rewrite Z2Nat.id by lia; lia | exact H0].
Qed.

(** [Period] adds nothing to the runs: every state of a run is the state of a
    run without it. *)
Lemma run_without_period (tr : list action) :
  exists tr', run tr boot = run tr' boot /\ Forall plain tr'.
Proof.
  induction tr as [| a tr (tr' & E & Hp)] using rev_ind.
  - exists []. split; [reflexivity | constructor].
  - rewrite run_snoc, E.
    assert (Hother : plain a ->
            exists tr'0, act a (run tr' boot) = run tr'0 boot /\ Forall plain tr'0).
    { intros Ha. exists (tr' ++ [a]). split; [symmetry; apply run_snoc |].
      apply Forall_app. split; [exact Hp | constructor; [exact Ha | constructor]]. }
    destruct a as [p v | t | t | v | m]; try (apply Hother; exact I).
    destruct (period_is_run t tr') as [n Hn]. cbv zeta in Hn.
    exists (tr' ++ repeat (Clock t) n). split.
    + rewrite run_app. exact Hn.
    + apply Forall_app. split; [exact Hp |].
      clear. induction n as [| n IH]; constructor; [exact I | exact IH].
Qed.

(** Every state the real machine reaches from [setup()], with its service
    by priority and its timers counting on from match to match, is reached by
    a run made of single counts, pin changes, main-loop statements and served
    interrupts. *)
Lemma steps_is_plain_run (tr : list action) :
  exists tr', steps tr boot = run tr' boot /\ Forall plain tr'.
Proof.
  destruct (steps_is_run tr boot) as [tr1 E].
  destruct (run_without_period tr1) as (tr2 & E2 & Hp).
  exists tr2. split; [rewrite E; exact E2 | exact Hp].
Qed.

(** ** Interrupt service comes to rest *)

Lemma testbit_raise (c : bool) (x n k : Z) :
  0 <= n ->
  Z.testbit (if c then Z.lor x (1 << n) else x) k = true ->
  Z.testbit x k = true \/ k = n.
Proof.
  intros Hn. destruct c; [| auto].
  rewrite testbit_set by exact Hn.
  destruct (Z.testbit x k); [auto |]. cbn. intros H. right. symmetry. apply Z.eqb_eq, H.
Qed.

Lemma testbit_ldiff_le (x m k : Z) :
  Z.testbit (Z.ldiff x m) k = true -> Z.testbit x k = true.
Proof. rewrite Z.ldiff_spec. intros H. apply andb_true_iff in H. apply H. Qed.

(** Serving a vector clears its request, and the only request a routine can
    make is the one for INT5, when a timer routine moves the trigger pin. *)
Lemma interrupt_requests (v w : vector) (s : state) :
  pending v s = true ->
  let s' := interrupt v s in
  requested v s' = false /\
  (requested w s' = true -> requested w s = true \/ (w = INT5 /\ timer_of v <> None)).
Proof.
  intros Hp. unfold interrupt. rewrite Hp. clear Hp. cbv zeta.
  destruct v, w; open_state s; eval_model; split_bools; split_tests;
    (split;
     [ bits; reflexivity
     | intros H;
       repeat first
         [ apply testbit_ldiff_le in H
         | apply testbit_raise in H; [destruct H as [H | H] | cbv; discriminate]
         | apply (testbit_raise true) in H; [destruct H as [H | H] | cbv; discriminate] ];
       first [ left; exact H
             | discriminate H
             | right; split; [reflexivity | discriminate] ] ]).
Qed.

Lemma owed_bounds (v : vector) (s : state) : 0 <= owed v s <= weight v.
Proof. unfold owed. destruct (requested v s), v; cbn; lia. Qed.

Lemma owed_after_interrupt (v w : vector) (s : state) :
  pending v s = true ->
  owed v s = weight v /\ owed v (interrupt v s) = 0 /\
  (w <> INT5 -> owed w (interrupt v s) <= owed w s) /\
  (timer_of v = None -> owed w (interrupt v s) <= owed w s).
Proof.
  intros Hp. destruct (interrupt_requests v w s Hp) as [_ Hw].
  destruct (interrupt_requests v v s Hp) as [Hv _].
  cbv zeta in *. unfold owed. rewrite Hv.
  assert (Hr : requested v s = true)
    by (unfold pending in Hp; apply andb_true_iff in Hp; apply Hp).
  rewrite Hr. split; [reflexivity | split; [reflexivity |]].
  split.
  - intros Hn. destruct (requested w (interrupt v s));
      [| destruct (requested w s), w; cbn; lia].
    destruct (Hw eq_refl) as [-> | [-> _]]; [lia | contradiction].
  - intros Hn. destruct (requested w (interrupt v s));
      [| destruct (requested w s), w; cbn; lia].
    destruct (Hw eq_refl) as [-> | [_ Ht]]; [lia | contradiction].
Qed.

Lemma backlog_bounds (s : state) : 0 <= backlog s <= 15.
Proof.
  unfold backlog.
  pose proof (owed_bounds INT3 s). pose proof (owed_bounds INT4 s).
  pose proof (owed_bounds INT5 s). pose proof (owed_bounds TIMER2_COMPA s).
  pose proof (owed_bounds TIMER2_COMPB s). pose proof (owed_bounds TIMER1_COMPA s).
  pose proof (owed_bounds TIMER1_COMPB s). pose proof (owed_bounds TIMER4_COMPA s).
  pose proof (owed_bounds TIMER5_COMPA s). cbn [weight] in *. lia.
Qed.

(** Every service takes something off the backlog. *)
Lemma interrupt_reduces_backlog (v : vector) (s : state) :
  pending v s = true -> backlog (interrupt v s) < backlog s.
Proof.
  intros Hp. unfold backlog.
  pose proof (fun w => owed_after_interrupt v w s Hp) as H.
  pose proof (owed_bounds INT5 (interrupt v s)) as Hb5. cbn [weight] in Hb5.
  pose proof (owed_bounds INT5 s) as Hb5'. cbn [weight] in Hb5'.
  pose proof (H INT3) as (Hv & Hv' & H3 & H3').
  pose proof (H INT4) as (_ & _ & H4 & H4').
  pose proof (H INT5) as (_ & _ & _ & H5').
  pose proof (H TIMER2_COMPA) as (_ & _ & H2a & _).
  pose proof (H TIMER2_COMPB) as (_ & _ & H2b & _).
  pose proof (H TIMER1_COMPA) as (_ & _ & H1a & _).
  pose proof (H TIMER1_COMPB) as (_ & _ & H1b & _).
  pose proof (H TIMER4_COMPA) as (_ & _ & H4a & _).
  pose proof (H TIMER5_COMPA) as (_ & _ & H5a & _).
  clear H H3' H4'.
  specialize (H3 ltac:(discriminate)). specialize (H4 ltac:(discriminate)).
  specialize (H2a ltac:(discriminate)). specialize (H2b ltac:(discriminate)).
  specialize (H1a ltac:(discriminate)). specialize (H1b ltac:(discriminate)).
  specialize (H4a ltac:(discriminate)). specialize (H5a ltac:(discriminate)).
  destruct v; cbn [weight timer_of] in *;
    try specialize (H5' eq_refl); lia.
Qed.

Lemma next_pending (s : state) (v : vector) : next s = Some v -> pending v s = true.
Proof. unfold next. intros H. apply find_some in H. apply H. Qed.

Lemma next_none (s : state) : next s = None -> forall v, pending v s = false.
Proof.
  unfold next. intros H v.
  apply (find_none _ _ H v). destruct v; cbn; tauto.
Qed.

Lemma service_settles (fuel : nat) (s : state) :
  backlog s < Z.of_nat fuel -> next (service fuel s) = None.
Proof.
  revert s. induction fuel as [| fuel IH]; intros s H.
  - pose proof (backlog_bounds s). lia.
  - cbn [service]. destruct (next s) as [v |] eqn:E; [| exact E].
    apply IH. pose proof (interrupt_reduces_backlog v s (next_pending s v E)). lia.
Qed.

(** The fuel of [step] is enough: after a step of the real machine no
    interrupt is left pending. *)
Lemma step_settles (a : action) (s : state) (v : vector) : pending v (step a s) = false.
Proof.
  apply next_none. unfold step. apply service_settles.
  pose proof (backlog_bounds (act a s)). lia.
Qed.

(** ** The arbiter *)

(** Every action of the machine moves the arbiter's variables the way
    [arbitrate] says. *)
Lemma act_arbitrates (a : action) (s : state) :
  view (act a s) = arbitrate (move_of a s) (view s).
Proof.
  destruct a as [p v | t | t | v | m].
  - destruct p; open_state s; reflexivity.
  - destruct t; open_state s; reflexivity.
  - destruct t; open_state s; reflexivity.
  - unfold move_of, act, interrupt. destruct (pending v s).
    + destruct v; by_cases s; reflexivity.
    + open_state s; reflexivity.
  - destruct m; open_state s; reflexivity.
Qed.

Lemma move_of_hold (a : action) (s : state) :
  move_of a s = HoldDelay -> a = Serve TIMER4_COMPA /\ pending TIMER4_COMPA s = true.
Proof.
  destruct a as [p v | t | t | v | m]; try discriminate.
  unfold move_of. destruct (pending v s) eqn:Hp; [| discriminate].
  destruct v; try discriminate. auto.
Qed.

Lemma move_of_panel (a : action) (s : state) (p : bool) :
  move_of a s = PanelSettled p -> a = Serve TIMER2_COMPB.
Proof.
  destruct a as [q v | t | t | v | m]; try discriminate.
  unfold move_of. destruct (pending v s); [| discriminate].
  destruct v; try discriminate. reflexivity.
Qed.

Lemma move_of_coarse_tick (a : action) (s : state) :
  move_of a s = CoarseTick -> a = Serve TIMER1_COMPA.
Proof.
  destruct a as [q v | t | t | v | m]; try discriminate.
  unfold move_of. destruct (pending v s); [| discriminate].
  destruct v; try discriminate. reflexivity.
Qed.

(** Go through the moves and the flags of an arbiter. *)
Ltac arbiter_cases x m :=
  destruct x as [mt dt dr vo out dc];
  destruct m as [| [] | [] | [] | |], mt, dt, dr, vo; cbn;
  try destruct (uint (dc + 1) >? maxDrainCycles); cbn.

(** What the moves do to an arbiter whose bookkeeping is consistent. *)
Section Arbitration.

Variable x : arbiter.
Hypothesis Hx : consistent x.

Lemma consistent_arbitrate (m : move) : consistent (arbitrate m x).
Proof.
  generalize Hx. generalize x. clear. intros x. unfold consistent.
  arbiter_cases x m; intuition congruence.
Qed.

(** A move that drops one source flag closes the valve exactly when the
    two other flags are down, and changes nothing on the output
    otherwise. *)
Lemma deactivation_arbiter (m : move) :
  let y := arbitrate m x in
  (manual x = true -> manual y = false ->
   (valve y = false /\ power y = 0 <-> digital x = false /\ drain x = false) /\
   (digital x = true \/ drain x = true -> power y = power x /\ valve y = true)) /\
  (digital x = true -> digital y = false ->
   (valve y = false /\ power y = 0 <-> manual x = false /\ drain x = false) /\
   (manual x = true \/ drain x = true -> power y = power x /\ valve y = true)) /\
  (drain x = true -> drain y = false ->
   (valve y = false /\ power y = 0 <-> manual x = false /\ digital x = false) /\
   (manual x = true \/ digital x = true -> power y = power x /\ valve y = true)).
Proof.
  generalize Hx. generalize x. clear. intros x. unfold consistent.
  arbiter_cases x m; intuition congruence.
Qed.

(** The end of the hold delay lowers the power only on an open valve. *)
Lemma hold_delay_arbiter :
  let y := arbitrate HoldDelay x in
  (power y = holdVoltage <-> valve x = true) /\
  (valve x = false -> power y = power x) /\
  valve y = valve x.
Proof.
  generalize Hx. generalize x. clear. intros x. unfold consistent.
  destruct x as [mt dt dr [] out dc]; cbn.
  - intuition congruence.
  - intros [_ ->]. intuition discriminate.
Qed.

(** The hold level is only ever entered from the hit level, by the end of
    the hold delay. *)
Lemma hold_from_hit_arbiter (m : move) :
  power (arbitrate m x) = holdVoltage ->
  power x = holdVoltage \/ (power x = hitVoltage /\ valve x = true /\ m = HoldDelay).
Proof.
  generalize Hx. generalize x. clear. intros x. unfold consistent.
  arbiter_cases x m; intuition (try discriminate; try congruence).
Qed.

End Arbitration.

(** Activation of a source on an open valve. *)
Lemma activation_arbiter (x : arbiter) :
  valve x = true ->
  (let y := arbitrate (ManualSettled true) x in
   power y = power x /\ manual y = true /\ valve y = true) /\
  (let y := arbitrate (DigitalDecoded true) x in
   power y = power x /\ digital y = true /\ valve y = true) /\
  (drain x = false -> arbitrate (PanelSettled true) x = x).
Proof.
  destruct x as [mt dt dr vo out dc]. cbn. intros ->.
  destruct mt, dt, dr; cbn; intuition congruence.
Qed.

(** Where the drain flag changes, and what happens to the counter there. *)
Lemma drain_counter_arbiter (m : move) (x : arbiter) :
  let y := arbitrate m x in
  (drain x = true -> drain y = false ->
   (m = PanelSettled true /\ cycles y = cycles x) \/
   (m = CoarseTick /\ cycles y = uint (cycles x + 1))) /\
  (drain x = false -> drain y = true ->
   m = PanelSettled true /\ cycles y = 0).
Proof. arbiter_cases x m; intuition (try discriminate; try congruence). Qed.

(** *** The arbiter invariant *)

Lemma arbiter_ok_boot : arbiter_ok boot.
Proof. split; reflexivity. Qed.

Lemma arbiter_ok_act (a : action) (s : state) : arbiter_ok s -> arbiter_ok (act a s).
Proof.
  unfold arbiter_ok. intros H. rewrite act_arbitrates.
  apply consistent_arbitrate. exact H.
Qed.

Lemma arbiter_ok_run (tr : list action) : arbiter_ok (run tr boot).
Proof. apply run_invariant; [exact arbiter_ok_boot | exact arbiter_ok_act]. Qed.

(** C1.  Along every run of the machine, that is after every sequence of
    pin changes, timer counts, served interrupts and main-loop statements,
    the valve is closed ([valveOpen] false and output 0) if and only if the
    three flags [manualTrigger], [digitalTrigger] and [draining] are all
    false. *)
Theorem valve_closed_iff_no_source_active (tr : list action) :
  let s := run tr boot in
  closed s <->
  (manualTrigger s = false /\ digitalTrigger s = false /\ draining s = false).
Proof.
  intros s. generalize (arbiter_ok_run tr). fold s.
  unfold arbiter_ok, consistent, closed, view. cbn [valve manual digital drain power].
  destruct (valveOpen s), (manualTrigger s), (digitalTrigger s), (draining s);
    cbn; intuition congruence.
Qed.

(** ** Deactivation *)

(** C5.  In every state reached by any run, an action that deactivates one
    source (its flag goes from true to false, whichever routine does it)
    leaves the valve closed, with output 0 and [valveOpen] false, if and only
    if the two other flags are false at that moment; if another flag is
    still true the output level is unchanged, be it the hit or the hold
    level, and the valve stays open. *)
Theorem deactivation_closes_iff_others_inactive (tr : list action) (a : action) :
  let s := run tr boot in
  let s' := act a s in
  (manualTrigger s = true -> manualTrigger s' = false ->
   (closed s' <-> digitalTrigger s = false /\ draining s = false) /\
   (digitalTrigger s = true \/ draining s = true ->
    output s' = output s /\ valveOpen s' = true)) /\
  (digitalTrigger s = true -> digitalTrigger s' = false ->
   (closed s' <-> manualTrigger s = false /\ draining s = false) /\
   (manualTrigger s = true \/ draining s = true ->
    output s' = output s /\ valveOpen s' = true)) /\
  (draining s = true -> draining s' = false ->
   (closed s' <-> manualTrigger s = false /\ digitalTrigger s = false) /\
   (manualTrigger s = true \/ digitalTrigger s = true ->
    output s' = output s /\ valveOpen s' = true)).
Proof.
  intros s s'.
  pose proof (deactivation_arbiter (view s) (arbiter_ok_run tr) (move_of a s)) as H.
  rewrite <- act_arbitrates in H. exact H.
Qed.

(** ** The hit and hold stages *)

(** Whatever opens the valve applies the hit level and arms the hold timer
    for a full delay. *)
Lemma opening_step (a : action) (s : state) :
  valveOpen s = false -> valveOpen (act a s) = true ->
  output (act a s) = hitVoltage /\ hold_timer_armed (act a s).
Proof.
  unfold hold_timer_armed, enabled, requested. destruct a as [p v | t | t | v | m].
  - destruct p; by_cases s; congruence.
  - destruct t; by_cases s; congruence.
  - destruct t; by_cases s; congruence.
  - unfold act, interrupt. destruct (pending v s).
    + destruct v; by_cases s; intros; try congruence; bits; auto.
    + congruence.
  - destruct m; by_cases s; congruence.
Qed.

Lemma hold_from_hit_step (tr : list action) (a : action) :
  let s := run tr boot in
  output (act a s) = holdVoltage ->
  output s = holdVoltage \/
  (output s = hitVoltage /\ valveOpen s = true /\ a = Serve TIMER4_COMPA).
Proof.
  intros s H.
  change (output (act a s)) with (power (view (act a s))) in H.
  rewrite act_arbitrates in H.
  destruct (hold_from_hit_arbiter _ (arbiter_ok_run tr) _ H) as [Hh | (Hh & Hv & Hm)].
  - left. exact Hh.
  - right. apply move_of_hold in Hm. split; [exact Hh | split; [exact Hv | apply Hm]].
Qed.

(** A run that ends at the hold level was at the hit level earlier, and the
    valve has been open ever since. *)
Lemma hold_after_hit (tr : list action) :
  output (run tr boot) = holdVoltage ->
  exists tr1 tr2,
    tr = tr1 ++ tr2 /\ output (run tr1 boot) = hitVoltage /\
    forall tr2' rest, tr2 = tr2' ++ rest -> valveOpen (run (tr1 ++ tr2') boot) = true.
Proof.
  induction tr as [| a tr IH] using rev_ind.
  - discriminate.
  - rewrite run_snoc. intros H.
    assert (Hopen : valveOpen (run (tr ++ [a]) boot) = true).
    { rewrite run_snoc. generalize (arbiter_ok_act a _ (arbiter_ok_run tr)).
      unfold arbiter_ok, consistent, view. cbn [valve power].
      destruct (valveOpen (act a (run tr boot))); [reflexivity |].
      intros [_ H0]. rewrite H0 in H. discriminate. }
    destruct (hold_from_hit_step tr a H) as [Hh | (Hh & Hv & _)].
    + destruct (IH Hh) as (tr1 & tr2 & -> & Hhit & Hmid).
      exists tr1, (tr2 ++ [a]). split; [symmetry; apply app_assoc |]. split; [exact Hhit |].
      intros tr2' rest E.
      destruct rest as [| b rest] using rev_ind.
      * rewrite app_nil_r in E. subst tr2'. rewrite app_assoc. exact Hopen.
      * clear IHrest. rewrite app_assoc in E. apply app_inj_tail in E.
        destruct E as [E _]. apply (Hmid tr2' rest E).
    + exists tr, [a]. split; [reflexivity |]. split; [exact Hh |].
      intros tr2' rest E. destruct tr2' as [| b tr2'].
      * rewrite app_nil_r. exact Hv.
      * injection E as <- E. destruct tr2'; [| discriminate]. exact Hopen.
Qed.

(** C6.  Every opening from closed drives the output at the hit level and
    arms the hold-transition timer for a full delay; when the timer fires the
    output goes to the hold level if and only if the valve is open at that
    time, and a firing that finds the valve closed changes nothing on the
    output; the hold level is only ever reached from the hit level, by that
    firing, so a run that is at the hold level has been at the hit level
    before with the valve open ever since. *)
Theorem opening_hits_then_holds :
  (forall (tr : list action) (a : action),
      let s := run tr boot in
      let s' := act a s in
      valveOpen s = false -> valveOpen s' = true ->
      output s' = hitVoltage /\ hold_timer_armed s') /\
  (forall tr : list action,
      let s := run tr boot in
      let s' := act (Serve TIMER4_COMPA) s in
      pending TIMER4_COMPA s = true ->
      (output s' = holdVoltage <-> valveOpen s = true) /\
      (valveOpen s = false -> output s' = output s) /\
      valveOpen s' = valveOpen s) /\
  (forall (tr : list action) (a : action),
      let s := run tr boot in
      output (act a s) = holdVoltage ->
      output s = holdVoltage \/
      (output s = hitVoltage /\ valveOpen s = true /\ a = Serve TIMER4_COMPA)) /\
  (forall tr : list action,
      output (run tr boot) = holdVoltage ->
      exists tr1 tr2,
        tr = tr1 ++ tr2 /\ output (run tr1 boot) = hitVoltage /\
        forall tr2' rest, tr2 = tr2' ++ rest -> valveOpen (run (tr1 ++ tr2') boot) = true).
Proof.
  split; [| split; [| split]].
  - intros tr a s s'. apply opening_step.
  - intros tr s s' Hp.
    pose proof (hold_delay_arbiter (view s) (arbiter_ok_run tr)) as H.
    replace HoldDelay with (move_of (Serve TIMER4_COMPA) s) in H
      by (unfold move_of; rewrite Hp; reflexivity).
    rewrite <- act_arbitrates in H. exact H.
  - exact hold_from_hit_step.
  - exact hold_after_hit.
Qed.
(** ** Activation while the valve is open *)

(** The counterexample to C7: with the valve held open by the manual
    trigger, a debounced press of the panel button does not set
    [draining]. *)
Lemma panel_press_ignored_when_open : ~ activation_when_open_sets_flag.
Proof.
  intros H. specialize (H manual_then_panel).
  assert (Hopen : valveOpen (run manual_then_panel boot) = true)
    by (vm_compute; reflexivity).
  destruct (H Hopen) as (_ & _ & Hpanel).
  assert (Hd : draining (act (Serve TIMER2_COMPB) (run manual_then_panel boot)) = true).
  { apply Hpanel; vm_compute; reflexivity. }
  vm_compute in Hd. discriminate.
Qed.

(** C7, amended.  With the valve open: a debounced press of the manual
    trigger and a high level decoded on the digital trigger leave the output
    level alone and set their flag; a debounced press of the panel button
    while no drain is running changes neither the output nor any flag, in
    particular [draining] stays false and no drain session starts. *)
Theorem activation_when_open (tr : list action) :
  let s := run tr boot in
  valveOpen s = true ->
  (pending TIMER2_COMPA s = true -> level (pad_of __manualTrigger s) = LOW ->
   let s' := act (Serve TIMER2_COMPA) s in
   output s' = output s /\ manualTrigger s' = true /\ valveOpen s' = true) /\
  (pending INT5 s = true -> level (pad_of __digitalTrigger s) = HIGH ->
   let s' := act (Serve INT5) s in
   output s' = output s /\ digitalTrigger s' = true /\ valveOpen s' = true) /\
  (pending TIMER2_COMPB s = true -> level (pad_of __panelButton s) = LOW ->
   draining s = false ->
   let s' := act (Serve TIMER2_COMPB) s in
   output s' = output s /\ draining s' = false /\ view s' = view s).
Proof.
  intros s Hopen.
  destruct (activation_arbiter (view s) Hopen) as (Hm & Hd & Hp).
  split; [| split].
  - intros Hpend Hlvl s'.
    replace (ManualSettled true) with (move_of (Serve TIMER2_COMPA) s) in Hm
      by (unfold move_of; rewrite Hpend, Hlvl; reflexivity).
    rewrite <- act_arbitrates in Hm. exact Hm.
  - intros Hpend Hlvl s'.
    replace (DigitalDecoded true) with (move_of (Serve INT5) s) in Hd
      by (unfold move_of; rewrite Hpend, Hlvl; reflexivity).
    rewrite <- act_arbitrates in Hd. exact Hd.
  - intros Hpend Hlvl Hdr s'.
    specialize (Hp Hdr).
    replace (PanelSettled true) with (move_of (Serve TIMER2_COMPB) s) in Hp
      by (unfold move_of; rewrite Hpend, Hlvl; reflexivity).
    rewrite <- act_arbitrates in Hp. fold s' in Hp.
    split; [| split].
    + change (power (view s') = power (view s)). rewrite Hp. reflexivity.
    + change (drain (view s') = false). rewrite Hp. exact Hdr.
    + exact Hp.
Qed.

(** ** The drain counter *)

(** The counterexample to C8: a drain session that has seen one coarse tick
    is ended from the panel, and the counter still reads one. *)
Lemma panel_stop_keeps_counter : ~ drain_end_resets_counter.
Proof.
  intros H.
  specialize (H drain_one_tick_then_panel (Serve TIMER2_COMPB)).
  assert (Hc : drainCycles (act (Serve TIMER2_COMPB) (run drain_one_tick_then_panel boot)) = 0).
  { apply H; vm_compute; reflexivity. }
  vm_compute in Hc. discriminate.
Qed.

(** C8, amended.  When the drain flag goes from true to false the counter is
    not reset: the step is either the panel-button routine, which leaves
    [drainCycles] as it is, or the watchdog routine, which leaves it at the
    value it has just been incremented to.  The counter is set to zero when
    the drain flag goes from false to true, which only the panel-button
    routine does, so every drain session counts from zero. *)
Theorem drain_counter_reset_at_start (tr : list action) (a : action) :
  let s := run tr boot in
  let s' := act a s in
  (draining s = true -> draining s' = false ->
   (a = Serve TIMER2_COMPB /\ drainCycles s' = drainCycles s) \/
   (a = Serve TIMER1_COMPA /\ drainCycles s' = uint (drainCycles s + 1))) /\
  (draining s = false -> draining s' = true ->
   a = Serve TIMER2_COMPB /\ drainCycles s' = 0).
Proof.
  intros s s'.
  pose proof (drain_counter_arbiter (move_of a s) (view s)) as H.
  rewrite <- act_arbitrates in H. fold s' in H. cbv zeta in H.
  destruct H as [Hoff Hon]. split.
  - intros H1 H2. destruct (Hoff H1 H2) as [[Hm Hc] | [Hm Hc]].
    + left. split; [exact (move_of_panel _ _ _ Hm) | exact Hc].
    + right. split; [exact (move_of_coarse_tick _ _ Hm) | exact Hc].
  - intros H1 H2. destruct (Hon H1 H2) as [Hm Hc].
    split; [exact (move_of_panel _ _ _ Hm) | exact Hc].
Qed.

(** ** Timers sharing a counter *)



(** A routine that disables itself writes [TIMSKn &= (0 << bit)], and the
    mask [0 << bit] is zero whatever the bit: the write disables every vector
    of that timer, not only the one named. *)
Lemma self_disable_clears_whole_mask (s : state) :
  (enabled TIMER2_COMPB (TIMER2_COMPA_vect s) = false /\
   enabled TIMER2_COMPA (TIMER2_COMPB_vect s) = false) /\
  (sequenceComplete (TIMER1_COMPB_vect s) = true ->
   sequenceComplete s = false ->
   enabled TIMER1_COMPA (TIMER1_COMPB_vect s) = false).
Proof.
  unfold enabled. split; [split |].
  - by_cases s; bits; reflexivity.
  - by_cases s; bits; reflexivity.
  - by_cases s; intros; try congruence; bits; reflexivity.
Qed.

(** ** The calibration flag *)

(** No action looks at [inCalibration]: acting on a state and on the same
    state with the flag forgotten gives the same result, up to the flag. *)
Lemma act_ignores_inCalibration (a : action) (s : state) :
  wr inCalibration false (act a s) = wr inCalibration false (act a (wr inCalibration false s)).
Proof.
  destruct a as [p v | t | t | v | m].
  - destruct p; open_state s; reflexivity.
  - destruct t; open_state s; reflexivity.
  - destruct t; open_state s; reflexivity.
  - unfold act, interrupt.
    assert (Hp : pending v (wr inCalibration false s) = pending v s)
      by (destruct v; open_state s; reflexivity).
    rewrite Hp. destruct (pending v s).
    + destruct v; by_cases s; reflexivity.
    + open_state s; reflexivity.
  - destruct m; open_state s; reflexivity.
Qed.

Lemma alike_act (a : action) (s1 s2 : state) :
  alike s1 s2 -> alike (act a s1) (act a s2).
Proof.
  unfold alike. intros H.
  rewrite (act_ignores_inCalibration a s1), (act_ignores_inCalibration a s2), H.
  reflexivity.
Qed.

Lemma alike_view (s1 s2 : state) : alike s1 s2 -> view s1 = view s2.
Proof.
  unfold alike. intros H.
  change (view s1) with (view (wr inCalibration false s1)).
  rewrite H. reflexivity.
Qed.

(** C10.  The trigger handling and the arbitration never read
    [inCalibration]: two runs that start from states differing at most in
    that flag and see the same actions (pin changes, timer counts, served
    interrupts, main-loop statements) stay equal except possibly for the
    flag; in particular the source flags, the valve flag and the output are
    the same in both after every debounced manual-trigger and every
    digital-trigger event. *)
Theorem inCalibration_never_read (tr : list action) (s1 s2 : state) :
  alike s1 s2 ->
  let r1 := run tr s1 in
  let r2 := run tr s2 in
  alike r1 r2 /\
  manualTrigger r1 = manualTrigger r2 /\ digitalTrigger r1 = digitalTrigger r2 /\
  draining r1 = draining r2 /\ valveOpen r1 = valveOpen r2 /\ output r1 = output r2.
Proof.
  intros H r1 r2.
  assert (Hr : alike r1 r2).
  { subst r1 r2. revert s1 s2 H. induction tr as [| a tr IH]; intros s1 s2 H.
    - exact H.
    - apply (IH (act a s1) (act a s2)). apply alike_act. exact H. }
  split; [exact Hr |].
  pose proof (alike_view r1 r2 Hr) as Hv.
  split; [exact (f_equal manual Hv) |].
  split; [exact (f_equal digital Hv) |].
  split; [exact (f_equal drain Hv) |].
  split; [exact (f_equal valve Hv) | exact (f_equal power Hv)].
Qed.

(** ** Counting ticks, pulses and drain cycles *)

(** *** The drain watchdog *)

(** While the incremented counter does not exceed [maxDrainCycles] a coarse
    tick only counts. *)
Lemma coarse_tick_counts (x : arbiter) :
  drain x = true -> 0 <= cycles x < maxDrainCycles ->
  arbitrate CoarseTick x =
  Arbiter (manual x) (digital x) true (valve x) (power x) (cycles x + 1).
Proof.
  destruct x as [mt dt dr vo out dc]. cbn. intros -> H.
  unfold uint, maxDrainCycles in *. rewrite Z.mod_small by lia.
  destruct (dc + 1 >? 200) eqn:E; [lia | reflexivity].
Qed.

(** A drain session that nobody stops is still running after
    [maxDrainCycles] coarse ticks; the tick after that one ends it. *)
Lemma watchdog_runs_one_tick_over (x : arbiter) (k : nat) :
  drain x = true -> cycles x = 0 -> (k <= 200)%nat ->
  let y := Nat.iter k (arbitrate CoarseTick) x in
  y = Arbiter (manual x) (digital x) true (valve x) (power x) (Z.of_nat k) /\
  (k = 200%nat -> drain (arbitrate CoarseTick y) = false).
Proof.
  intros Hd Hc Hk y.
  assert (Hy : y = Arbiter (manual x) (digital x) true (valve x) (power x) (Z.of_nat k)).
  { subst y. induction k as [| k IH].
    - destruct x as [mt dt dr vo out dc]. cbn in *. subst. reflexivity.
    - rewrite Nat.iter_succ, IH by lia.
      rewrite coarse_tick_counts.
      + cbn [manual digital valve power cycles]. f_equal. lia.
      + reflexivity.
      + cbn [cycles]. unfold maxDrainCycles. lia. }
  split; [exact Hy |].
  intros ->. rewrite Hy. cbn. destruct (manual x), (digital x); reflexivity.
Qed.

(** *** The pulse clock *)

(** A firing of the 1 kHz routine that finds [tickCounter] not above
    [maxTicks] only counts. *)
Lemma pulse_clock_counts (s : state) (k : Z) :
  0 <= k <= maxTicks s -> k + 1 < 65536 ->
  TIMER5_COMPA_vect (wr tickCounter k s) = wr tickCounter (k + 1) s.
Proof.
  open_state s. eval_model. intros H1 H2.
  destruct (k >? _) eqn:E; [lia |].
  rewrite Z.mod_small by lia. reflexivity.
Qed.

(** The firing that finds [tickCounter] above [maxTicks] ends the pulse. *)
Lemma pulse_clock_ends (s : state) (k : Z) :
  maxTicks s < k ->
  TIMER5_COMPA_vect (wr tickCounter k s) =
  digitalWrite __digitalTrigger LOW
    (and_assign TIMSK5 (0 << OCIE5A) (wr tickCounter (uint (k + 1)) s)).
Proof.
  open_state s. eval_model. intros H.
  destruct (k >? _) eqn:E; [reflexivity | lia].
Qed.

(** From a counter reset to zero the first [maxTicks + 1] firings leave the
    trigger line as it is; the pulse is ended by firing number
    [maxTicks + 2]. *)
Lemma pulse_lasts_two_ticks_over (s : state) (k : nat) :
  0 <= maxTicks s -> maxTicks s + 2 < 65536 -> Z.of_nat k <= maxTicks s + 1 ->
  Nat.iter k TIMER5_COMPA_vect (wr tickCounter 0 s) = wr tickCounter (Z.of_nat k) s.
Proof.
  intros H0 H1. induction k as [| k IH]; intros Hk.
  - reflexivity.
  - rewrite Nat.iter_succ, IH by lia.
    rewrite pulse_clock_counts by lia. f_equal. lia.
Qed.

(** *** The release counter *)

(** A firing of the 1 Hz calibration routine always counts first; it starts
    a pulse when the new count is below [maxReleases] and declares the
    sequence complete otherwise. *)
Lemma sequencer_firing (s : state) :
  let s' := TIMER1_COMPB_vect s in
  releaseCount s' = uint (releaseCount s + 1) /\
  ((releaseCount s' <? maxReleases s) = true ->
   trigger_line s' = HIGH /\ tickCounter s' = 0 /\
   sequenceComplete s' = sequenceComplete s /\ enabled TIMER5_COMPA s' = true) /\
  ((releaseCount s' <? maxReleases s) = false ->
   sequenceComplete s' = true /\ enabled TIMER1_COMPB s' = false /\
   ddr (pad_of __digitalTrigger s') = false).
Proof.
  unfold trigger_line, enabled. open_state s. eval_model.
  split_tests; bits; intuition congruence.
Qed.

(** The routine that ends a pulse does not touch the release counter. *)
Lemma pulse_end_keeps_releaseCount (s : state) :
  releaseCount (TIMER5_COMPA_vect s) = releaseCount s /\
  releaseCount (INT5_vect s) = releaseCount s.
Proof. split; by_cases s; reflexivity. Qed.

(** ** The counters on the machine *)

(** C3 (the code at the failing input).  [maxDrainCycles] is 200.  A drain
    session started from the panel and never stopped by hand is still
    running, with the valve open, when 200 coarse ticks have been counted;
    the watchdog drops [draining] and closes the valve on coarse tick 201. *)
Theorem drain_ends_on_coarse_tick_201 :
  let s0 := steps press_panel boot in
  let s200 := steps (milliseconds 200999 1) s0 in
  let s201 := steps (milliseconds 1 201000) s200 in
  maxDrainCycles = 200 /\
  (draining s0 = true /\ valveOpen s0 = true /\ drainCycles s0 = 0) /\
  (draining s200 = true /\ valveOpen s200 = true /\ drainCycles s200 = 200) /\
  (draining s201 = false /\ valveOpen s201 = false /\ output s201 = 0 /\
   drainCycles s201 = 201).
Proof. vm_compute. repeat split; reflexivity. Qed.

(** C4 (the code at the failing input).  Trial 3 of the calibration table
    asks for pulses of 100 ticks.  The tick counter is zero when the pulse
    starts; the synthetic trigger is still asserted after the 1 kHz routine
    has fired 100 times and 101 times, and it is deasserted by the firing that
    takes [tickCounter] to 102. *)
Theorem pulse_of_100_ticks_lasts_102 :
  let s0 := steps (start_trial 3) idle in
  let s100 := steps (milliseconds 100 1) s0 in
  let s101 := steps (milliseconds 1 101) s100 in
  let s102 := steps (milliseconds 1 102) s101 in
  maxTicks s0 = 100 /\
  (trigger_line s0 = HIGH /\ digitalTrigger s0 = true /\ tickCounter s0 = 0) /\
  (trigger_line s100 = HIGH /\ digitalTrigger s100 = true /\ tickCounter s100 = 100) /\
  (trigger_line s101 = HIGH /\ digitalTrigger s101 = true /\ tickCounter s101 = 101) /\
  (trigger_line s102 = LOW /\ digitalTrigger s102 = false /\ tickCounter s102 = 102).
Proof. vm_compute. repeat split; reflexivity. Qed.

(** C2 (the code at the failing input).  Trial 9 of the calibration table
    asks for 11 releases.  Followed on the machine until the sequence is
    declared complete, ten seconds after its start, the synthetic trigger has
    been asserted 10 times and deasserted 10 times, while [releaseCount] reads
    11: the counter is incremented by the 1 Hz routine before each pulse and
    once more by the firing that sets [sequenceComplete]. *)
Theorem trial_of_11_releases_gives_10_pulses :
  let before := follow_trial 9 9999 in
  let after := watching trigger_line (milliseconds 1 10000) before in
  nth 9 numOpens 0 = 11 /\
  (sequenceComplete (fst before) = false /\ releaseCount (fst before) = 10 /\
   snd before = (10, 10)) /\
  (sequenceComplete (fst after) = true /\ releaseCount (fst after) = 11 /\
   maxReleases (fst after) = 11 /\ snd after = (10, 10)).
Proof. vm_compute. repeat split; reflexivity. Qed.

(** ** The theorems at work on concrete runs *)

(** C5 at work: the manual trigger alone held the valve open and its release
    closes it; the falling digital trigger closes a valve that nothing else
    holds; a second press of the panel button ends a drain and closes the
    valve. *)
Lemma deactivation_closes_iff_others_inactive_witness :
  (let s := run manual_release_settling boot in
   manualTrigger s = true /\ manualTrigger (act (Serve TIMER2_COMPA) s) = false /\
   (closed (act (Serve TIMER2_COMPA) s) <->
    digitalTrigger s = false /\ draining s = false)) /\
  (let s := run digital_falling boot in
   digitalTrigger s = true /\ digitalTrigger (act (Serve INT5) s) = false /\
   (closed (act (Serve INT5) s) <-> manualTrigger s = false /\ draining s = false)) /\
  (let s := run drain_one_tick_then_panel boot in
   draining s = true /\ draining (act (Serve TIMER2_COMPB) s) = false /\
   (closed (act (Serve TIMER2_COMPB) s) <->
    manualTrigger s = false /\ digitalTrigger s = false)).
Proof.
  split; [| split].
  - assert (H1 : manualTrigger (run manual_release_settling boot) = true)
      by (vm_compute; reflexivity).
    assert (H2 : manualTrigger
                   (act (Serve TIMER2_COMPA) (run manual_release_settling boot)) = false)
      by (vm_compute; reflexivity).
    split; [exact H1 | split; [exact H2 |]].
    exact (proj1 (proj1 (deactivation_closes_iff_others_inactive
                           manual_release_settling (Serve TIMER2_COMPA)) H1 H2)).
  - assert (H1 : digitalTrigger (run digital_falling boot) = true)
      by (vm_compute; reflexivity).
    assert (H2 : digitalTrigger (act (Serve INT5) (run digital_falling boot)) = false)
      by (vm_compute; reflexivity).
    split; [exact H1 | split; [exact H2 |]].
    exact (proj1 (proj1 (proj2 (deactivation_closes_iff_others_inactive
                                  digital_falling (Serve INT5))) H1 H2)).
  - assert (H1 : draining (run drain_one_tick_then_panel boot) = true)
      by (vm_compute; reflexivity).
    assert (H2 : draining
                   (act (Serve TIMER2_COMPB) (run drain_one_tick_then_panel boot)) = false)
      by (vm_compute; reflexivity).
    split; [exact H1 | split; [exact H2 |]].
    exact (proj1 (proj2 (proj2 (deactivation_closes_iff_others_inactive
                                  drain_one_tick_then_panel (Serve TIMER2_COMPB))) H1 H2)).
Defined.

(** C6 at work: the settled press of the manual trigger opens the valve at
    the hit level with the hold timer armed; 25 ms later the timer is pending
    and its service lowers the output to the hold level; the run that ends
    there was at the hit level before. *)
Lemma opening_hits_then_holds_witness :
  (let s := run manual_edge_settling boot in
   valveOpen s = false /\ valveOpen (act (Serve TIMER2_COMPA) s) = true /\
   output (act (Serve TIMER2_COMPA) s) = hitVoltage /\
   hold_timer_armed (act (Serve TIMER2_COMPA) s)) /\
  (let s := run hit_phase_over boot in
   pending TIMER4_COMPA s = true /\
   (output (act (Serve TIMER4_COMPA) s) = holdVoltage <-> valveOpen s = true)) /\
  (let s := run hit_phase_over boot in
   output (act (Serve TIMER4_COMPA) s) = holdVoltage /\
   (output s = holdVoltage \/
    (output s = hitVoltage /\ valveOpen s = true /\
     Serve TIMER4_COMPA = Serve TIMER4_COMPA))) /\
  (output (run (hit_phase_over ++ [Serve TIMER4_COMPA]) boot) = holdVoltage /\
   exists tr1 tr2,
     hit_phase_over ++ [Serve TIMER4_COMPA] = tr1 ++ tr2 /\
     output (run tr1 boot) = hitVoltage /\
     forall tr2' rest, tr2 = tr2' ++ rest -> valveOpen (run (tr1 ++ tr2') boot) = true).
Proof.
  destruct opening_hits_then_holds as (Hopen & Hfire & Hstep & Hrun).
  split; [| split; [| split]].
  - assert (H1 : valveOpen (run manual_edge_settling boot) = false)
      by (vm_compute; reflexivity).
    assert (H2 : valveOpen (act (Serve TIMER2_COMPA) (run manual_edge_settling boot)) = true)
      by (vm_compute; reflexivity).
    split; [exact H1 | split; [exact H2 |]].
    exact (Hopen manual_edge_settling (Serve TIMER2_COMPA) H1 H2).
  - assert (H1 : pending TIMER4_COMPA (run hit_phase_over boot) = true)
      by (vm_compute; reflexivity).
    split; [exact H1 |].
    exact (proj1 (Hfire hit_phase_over H1)).
  - assert (H1 : output (act (Serve TIMER4_COMPA) (run hit_phase_over boot)) = holdVoltage)
      by (vm_compute; reflexivity).
    split; [exact H1 |].
    exact (Hstep hit_phase_over (Serve TIMER4_COMPA) H1).
  - assert (H1 : output (run (hit_phase_over ++ [Serve TIMER4_COMPA]) boot) = holdVoltage)
      by (vm_compute; reflexivity).
    split; [exact H1 |].
    exact (Hrun (hit_phase_over ++ [Serve TIMER4_COMPA]) H1).
Defined.

(** C7 at work: with the valve held open by the digital trigger a settled
    press of the manual trigger sets [manualTrigger] and leaves the output
    alone; with the valve held open by the manual trigger a high digital
    trigger sets [digitalTrigger]; and a settled press of the panel button
    starts no drain. *)
Lemma activation_when_open_witness :
  (let s := run manual_settling_while_open boot in
   let s' := act (Serve TIMER2_COMPA) s in
   valveOpen s = true /\ output s' = output s /\ manualTrigger s' = true) /\
  (let s := run digital_rising_while_open boot in
   let s' := act (Serve INT5) s in
   valveOpen s = true /\ output s' = output s /\ digitalTrigger s' = true) /\
  (let s := run manual_then_panel boot in
   let s' := act (Serve TIMER2_COMPB) s in
   valveOpen s = true /\ output s' = output s /\ draining s' = false).
Proof.
  split; [| split].
  - assert (H0 : valveOpen (run manual_settling_while_open boot) = true)
      by (vm_compute; reflexivity).
    assert (H1 : pending TIMER2_COMPA (run manual_settling_while_open boot) = true)
      by (vm_compute; reflexivity).
    assert (H2 : level (pad_of __manualTrigger (run manual_settling_while_open boot)) = LOW)
      by (vm_compute; reflexivity).
    destruct (proj1 (activation_when_open manual_settling_while_open H0) H1 H2)
      as (Ho & Hf & _).
    split; [exact H0 | split; [exact Ho | exact Hf]].
  - assert (H0 : valveOpen (run digital_rising_while_open boot) = true)
      by (vm_compute; reflexivity).
    assert (H1 : pending INT5 (run digital_rising_while_open boot) = true)
      by (vm_compute; reflexivity).
    assert (H2 : level (pad_of __digitalTrigger (run digital_rising_while_open boot)) = HIGH)
      by (vm_compute; reflexivity).
    destruct (proj1 (proj2 (activation_when_open digital_rising_while_open H0)) H1 H2)
      as (Ho & Hf & _).
    split; [exact H0 | split; [exact Ho | exact Hf]].
  - assert (H0 : valveOpen (run manual_then_panel boot) = true)
      by (vm_compute; reflexivity).
    assert (H1 : pending TIMER2_COMPB (run manual_then_panel boot) = true)
      by (vm_compute; reflexivity).
    assert (H2 : level (pad_of __panelButton (run manual_then_panel boot)) = LOW)
      by (vm_compute; reflexivity).
    assert (H3 : draining (run manual_then_panel boot) = false)
      by (vm_compute; reflexivity).
    destruct (proj2 (proj2 (activation_when_open manual_then_panel H0)) H1 H2 H3)
      as (Ho & Hf & _).
    split; [exact H0 | split; [exact Ho | exact Hf]].
Defined.

(** C8 at work: ending a drain from the panel after one coarse tick leaves
    the counter at one; starting a drain sets it to zero. *)
Lemma drain_counter_reset_at_start_witness :
  (let s := run drain_one_tick_then_panel boot in
   let s' := act (Serve TIMER2_COMPB) s in
   draining s = true /\ draining s' = false /\
   ((Serve TIMER2_COMPB = Serve TIMER2_COMPB /\ drainCycles s' = drainCycles s) \/
    (Serve TIMER2_COMPB = Serve TIMER1_COMPA /\
     drainCycles s' = uint (drainCycles s + 1)))) /\
  (let s := run panel_edge_settling boot in
   let s' := act (Serve TIMER2_COMPB) s in
   draining s = false /\ draining s' = true /\ drainCycles s' = 0).
Proof.
  split.
  - assert (H1 : draining (run drain_one_tick_then_panel boot) = true)
      by (vm_compute; reflexivity).
    assert (H2 : draining
                   (act (Serve TIMER2_COMPB) (run drain_one_tick_then_panel boot)) = false)
      by (vm_compute; reflexivity).
    split; [exact H1 | split; [exact H2 |]].
    exact (proj1 (drain_counter_reset_at_start drain_one_tick_then_panel
                    (Serve TIMER2_COMPB)) H1 H2).
  - assert (H1 : draining (run panel_edge_settling boot) = false)
      by (vm_compute; reflexivity).
    assert (H2 : draining (act (Serve TIMER2_COMPB) (run panel_edge_settling boot)) = true)
      by (vm_compute; reflexivity).
    split; [exact H1 | split; [exact H2 |]].
    exact (proj2 (proj2 (drain_counter_reset_at_start panel_edge_settling
                           (Serve TIMER2_COMPB)) H1 H2)).
Defined.


(** C10 at work: the machine after [setup()] and the same machine with
    [inCalibration] set go through a settled press of the manual trigger in
    the same way. *)
Lemma inCalibration_never_read_witness :
  let tr := manual_edge_settling ++ [Serve TIMER2_COMPA] in
  let r1 := run tr boot in
  let r2 := run tr (wr inCalibration true boot) in
  alike boot (wr inCalibration true boot) /\
  manualTrigger r1 = manualTrigger r2 /\ valveOpen r1 = valveOpen r2 /\
  output r1 = output r2.
Proof.
  assert (H : alike boot (wr inCalibration true boot)) by reflexivity.
  destruct (inCalibration_never_read (manual_edge_settling ++ [Serve TIMER2_COMPA])
              boot (wr inCalibration true boot) H) as (_ & Hm & _ & _ & Hv & Ho).
  split; [exact H | split; [exact Hm | split; [exact Hv | exact Ho]]].
Defined.

(** * The controller on the real machine *)

(** ** The machine at rest *)

Lemma next_quiet (s : state) : (forall v, pending v s = false) -> quiet s.
Proof. intros H. unfold quiet, next, vectors. cbn [find]. rewrite !H. reflexivity. Qed.

Lemma next_highest (v : vector) (s : state) :
  pending v s = true ->
  (forall w, (priority w < priority v)%nat -> pending w s = false) ->
  next s = Some v.
Proof.
  intros Hv Hw. unfold next, vectors. cbn [find].
  destruct v; cbn [priority] in Hw;
    repeat first [ rewrite Hv | rewrite Hw by (cbn; lia) ]; reflexivity.
Qed.

Lemma service_rest (fuel : nat) (s : state) : quiet s -> service fuel s = s.
Proof. unfold quiet. intros H. destruct fuel; cbn [service]; [| rewrite H]; reflexivity. Qed.

Lemma service_once (fuel : nat) (s : state) (v : vector) :
  next s = Some v -> quiet (interrupt v s) -> service (S fuel) s = interrupt v s.
Proof. intros H1 H2. cbn [service]. rewrite H1. apply service_rest, H2. Qed.

Lemma steps_app (tr1 tr2 : list action) (s : state) :
  steps (tr1 ++ tr2) s = steps tr2 (steps tr1 s).
Proof. unfold steps. apply fold_left_app. Qed.

Lemma steps_cons (a : action) (tr : list action) (s : state) :
  steps (a :: tr) s = steps tr (step a s).
Proof. reflexivity. Qed.

Lemma quiet_boot : quiet boot.
Proof. reflexivity. Qed.

Lemma quiet_step (a : action) (s : state) : quiet (step a s).
Proof. apply next_quiet. intros v. apply step_settles. Qed.

Lemma quiet_steps (tr : list action) (s : state) : quiet s -> quiet (steps tr s).
Proof.
  intros H. induction tr as [| a tr IH] using rev_ind.
  - exact H.
  - rewrite steps_app. apply quiet_step.
Qed.

Lemma pins_ok_boot : pins_ok boot.
Proof. repeat split. Qed.

Lemma pins_ok_act (a : action) (s : state) : pins_ok s -> pins_ok (act a s).
Proof.
  unfold pins_ok. destruct a as [p v | t | t | v | m].
  - destruct p; open_state s; eval_model; tauto.
  - destruct t; open_state s; eval_model; tauto.
  - destruct t; open_state s; eval_model; tauto.
  - unfold act, interrupt. destruct (pending v s); [| tauto].
    destruct v; by_cases s; tauto.
  - destruct m; open_state s; eval_model; tauto.
Qed.

Lemma pins_ok_run (tr : list action) (s : state) : pins_ok s -> pins_ok (run tr s).
Proof.
  revert s. induction tr as [| a tr IH]; intros s H; [exact H |].
  apply (IH (act a s)), pins_ok_act, H.
Qed.

Lemma pins_ok_steps (tr : list action) (s : state) : pins_ok s -> pins_ok (steps tr s).
Proof.
  intros H. destruct (steps_is_run tr s) as [tr' ->]. apply pins_ok_run, H.
Qed.

Lemma arbiter_ok_steps (tr : list action) (s : state) :
  arbiter_ok s -> arbiter_ok (steps tr s).
Proof.
  intros H. destruct (steps_is_run tr s) as [tr' ->].
  revert s H. induction tr' as [| a tr' IH]; intros s H; [exact H |].
  apply (IH (act a s)), arbiter_ok_act, H.
Qed.

(** Recall what a quiet state says about each vector. *)
Ltac recall_quiet H s :=
  let Hq := fresh "Hq" in
  pose proof (next_none s H) as Hq;
  pose proof (Hq INT3); pose proof (Hq INT4); pose proof (Hq INT5);
  pose proof (Hq TIMER2_COMPA); pose proof (Hq TIMER2_COMPB);
  pose proof (Hq TIMER1_COMPA); pose proof (Hq TIMER1_COMPB);
  pose proof (Hq TIMER4_COMPA); pose proof (Hq TIMER5_COMPA); clear Hq H.

(** Decide the bit tests of a goal together with what the context knows
    about them. *)
Ltac split_testbits :=
  repeat match goal with
         | |- context [Z.testbit ?x ?n] =>
             repeat match goal with
                    | H : context [Z.testbit x n] |- _ => revert H
                    end;
             destruct (Z.testbit x n); cbv beta iota; intros
         end.

Ltac finish := first [ reflexivity | assumption | discriminate | congruence ].

(** Evaluate the integer tests between numerals. *)
Ltac closed_tests :=
  repeat match goal with
         | |- context [Z.eqb ?a ?b] =>
             let v := eval vm_compute in (Z.eqb a b) in
             match v with
             | true => change (Z.eqb a b) with true
             | false => change (Z.eqb a b) with false
             end
         end;
  cbv beta iota.

(** Settle a goal about the registers of a state that has been run
    symbolically. *)
Ltac registers s :=
  open_state s; eval_model; subst; closed_tests; split_bools; bits;
  first [ finish | split_testbits; finish ].

(** The step serves exactly one interrupt, the one of vector [v]. *)
Ltac one_service s v :=
  unfold step; apply service_once;
  [ apply next_highest;
    [ registers s
    | let w := fresh "w" in
      let Hw := fresh "Hw" in
      intros w Hw; destruct w; cbn in Hw; try lia; registers s ]
  | apply next_quiet;
    let w := fresh "w" in
    intros w; unfold interrupt;
    replace (pending v _) with true by (symmetry; registers s);
    destruct w; registers s ].

(** The step serves nothing. *)
Ltac no_service s :=
  unfold step; apply service_rest; apply next_quiet;
  let w := fresh "w" in
  intros w; destruct w; registers s.


Lemma panel_press_step (s : state) :
  quiet s -> pins_ok s -> level (pad_of __panelButton s) = HIGH ->
  step (Wire __panelButton LOW) s = interrupt INT3 (act (Wire __panelButton LOW) s).
Proof.
  intros Hq (H2 & H18 & H9) Hl. recall_quiet Hq s. one_service s INT3.
Qed.

Lemma panel_release_step (s : state) :
  quiet s -> pins_ok s ->
  step (Wire __panelButton HIGH) s = act (Wire __panelButton HIGH) s.
Proof.
  intros Hq (H2 & H18 & H9). recall_quiet Hq s. no_service s.
Qed.

Lemma digital_edge_step (s : state) :
  quiet s -> ddr (pad_of __digitalTrigger s) = false ->
  let a := Wire __digitalTrigger (negb (level (pad_of __digitalTrigger s))) in
  step a s = interrupt INT5 (act a s).
Proof.
  intros Hq H3 a. subst a. recall_quiet Hq s. one_service s INT5.
Qed.

Lemma manual_settle_step (s : state) :
  quiet s -> enabled TIMER2_COMPA s = true ->
  step (Period Timer2) s = interrupt TIMER2_COMPA (act (Period Timer2) s).
Proof.
  intros Hq He. recall_quiet Hq s. one_service s TIMER2_COMPA.
Qed.

Lemma panel_settle_step (s : state) :
  quiet s -> enabled TIMER2_COMPA s = false -> enabled TIMER2_COMPB s = true ->
  step (Period Timer2) s = interrupt TIMER2_COMPB (act (Period Timer2) s).
Proof.
  intros Hq Ha Hb. recall_quiet Hq s. one_service s TIMER2_COMPB.
Qed.

Lemma debounce_idle_step (s : state) :
  quiet s -> enabled TIMER2_COMPA s = false -> enabled TIMER2_COMPB s = false ->
  step (Period Timer2) s = act (Period Timer2) s.
Proof.
  intros Hq Ha Hb. recall_quiet Hq s. no_service s.
Qed.

Lemma hold_delay_step (s : state) :
  quiet s -> enabled TIMER4_COMPA s = true ->
  step (Period Timer4) s = interrupt TIMER4_COMPA (act (Period Timer4) s).
Proof.
  intros Hq He. recall_quiet Hq s. one_service s TIMER4_COMPA.
Qed.

(** ** The manual trigger, debounced *)

Lemma quiet_counter (t : timer) (c : Z) (s : state) : quiet s -> quiet (wr (counter t) c s).
Proof. unfold quiet. intros H. rewrite <- H. destruct t; open_state s; reflexivity. Qed.

(** Short of the compare match the counts of timer 2 only move its
    counter, and no interrupt is served. *)
Lemma timer2_counts (g : nat) (s : state) :
  quiet s -> 0 <= TCNT2 s -> TCNT2 s + Z.of_nat g <= 124 ->
  steps (repeat (Clock Timer2) g) s = wr TCNT2 (TCNT2 s + Z.of_nat g) s.
Proof.
  revert s. induction g as [| g IH]; intros s Hq H0 H1.
  - cbn [repeat steps fold_left]. rewrite Z.add_0_r. open_state s. reflexivity.
  - change (steps (repeat (Clock Timer2) (S g)) s)
      with (steps (repeat (Clock Timer2) g) (step (Clock Timer2) s)).
    assert (E : step (Clock Timer2) s = wr TCNT2 (TCNT2 s + 1) s).
    { unfold step. cbn [act].
      rewrite (clock_below_top Timer2) by (cbn [counter top]; unfold OCR2A; lia).
      apply service_rest, (quiet_counter Timer2), Hq. }
    rewrite E, IH.
    + rewrite (counter_wr Timer2).
      replace (TCNT2 s + 1 + Z.of_nat g) with (TCNT2 s + Z.of_nat (S g)) by lia.
      open_state s. reflexivity.
    + apply (quiet_counter Timer2), Hq.
    + rewrite (counter_wr Timer2). lia.
    + rewrite (counter_wr Timer2). lia.
Qed.


Lemma counting_effect (c : Z) (s : state) :
  let s' := wr TCNT2 c s in
  view s' = view s /\ (pins_ok s -> pins_ok s') /\
  enabled TIMER2_COMPA s' = enabled TIMER2_COMPA s /\
  enabled TIMER2_COMPB s' = enabled TIMER2_COMPB s /\
  level (pad_of __manualTrigger s') = level (pad_of __manualTrigger s) /\
  pad_of __panelButton s' = pad_of __panelButton s.
Proof. open_state s. unfold pins_ok. repeat split; first [reflexivity | tauto]. Qed.




(** The debounce delay of an armed manual trigger ends with the routine
    sampling the line. *)
Lemma manual_settle_effect (s : state) :
  quiet s -> enabled TIMER2_COMPA s = true ->
  let s' := step (Period Timer2) s in
  view s' = arbitrate (ManualSettled (negb (level (pad_of __manualTrigger s)))) (view s) /\
  enabled TIMER2_COMPA s' = false /\ enabled TIMER2_COMPB s' = false /\
  pad_of __panelButton s' = pad_of __panelButton s.
Proof.
  intros Hq He s'. subst s'. rewrite (manual_settle_step s Hq He).
  assert (Hp : pending TIMER2_COMPA (act (Period Timer2) s) = true)
    by (clear Hq; registers s).
  split.
  - change (interrupt TIMER2_COMPA ?x) with (act (Serve TIMER2_COMPA) x).
    rewrite !act_arbitrates. cbn [move_of arbitrate]. rewrite Hp.
    replace (level (pad_of __manualTrigger (act (Period Timer2) s)))
      with (level (pad_of __manualTrigger s)) by (clear; open_state s; reflexivity).
    destruct (view s); reflexivity.
  - unfold interrupt. rewrite Hp. clear Hp Hq He.
    repeat split; by_cases s; bits; reflexivity.
Qed.




(** ** The panel button *)

(** A press of the panel button arms its debounce for a full delay and
    touches nothing the arbiter works on. *)
Lemma panel_press_effect (s : state) :
  quiet s -> pins_ok s -> level (pad_of __panelButton s) = HIGH ->
  let s' := step (Wire __panelButton LOW) s in
  view s' = view s /\ pins_ok s' /\ enabled TIMER2_COMPB s' = true /\ TCNT2 s' = 0 /\
  level (pad_of __panelButton s') = LOW /\
  enabled TIMER2_COMPA s' = enabled TIMER2_COMPA s.
Proof.
  intros Hq Hp Hl s'. subst s'. rewrite (panel_press_step s Hq Hp Hl).
  destruct Hp as (H2 & H18 & H9). unfold pins_ok, interrupt.
  replace (pending INT3 _) with true by (symmetry; registers s).
  repeat split; registers s.
Qed.

(** The release of the panel button requests nothing. *)
Lemma panel_release_effect (s : state) :
  quiet s -> pins_ok s ->
  let s' := step (Wire __panelButton HIGH) s in
  view s' = view s /\ pins_ok s' /\ level (pad_of __panelButton s') = HIGH /\
  enabled TIMER2_COMPA s' = enabled TIMER2_COMPA s /\
  enabled TIMER2_COMPB s' = enabled TIMER2_COMPB s.
Proof.
  intros Hq Hp s'. subst s'. rewrite (panel_release_step s Hq Hp).
  destruct Hp as (H2 & H18 & H9). unfold pins_ok.
  repeat split; registers s.
Qed.

(** The debounce delay of an armed panel button ends with the routine
    sampling the line, when the manual debounce is not armed with it. *)
Lemma panel_settle_effect (s : state) :
  quiet s -> enabled TIMER2_COMPA s = false -> enabled TIMER2_COMPB s = true ->
  let s' := step (Period Timer2) s in
  view s' = arbitrate (PanelSettled (negb (level (pad_of __panelButton s)))) (view s) /\
  enabled TIMER2_COMPA s' = false /\ enabled TIMER2_COMPB s' = false /\
  pad_of __panelButton s' = pad_of __panelButton s /\ (pins_ok s -> pins_ok s').
Proof.
  intros Hq Ha Hb s'. subst s'. rewrite (panel_settle_step s Hq Ha Hb).
  assert (Hp : pending TIMER2_COMPB (act (Period Timer2) s) = true)
    by (clear Hq Ha; registers s).
  split.
  - change (interrupt TIMER2_COMPB ?x) with (act (Serve TIMER2_COMPB) x).
    rewrite !act_arbitrates. cbn [move_of arbitrate]. rewrite Hp.
    replace (level (pad_of __panelButton (act (Period Timer2) s)))
      with (level (pad_of __panelButton s)) by (clear; open_state s; reflexivity).
    destruct (view s); reflexivity.
  - unfold interrupt. rewrite Hp. clear Hp Hq Ha Hb. unfold pins_ok.
    repeat split; by_cases s; bits; first [reflexivity | tauto].
Qed.

(** With neither debounce armed the compare match of timer 2 passes
    unnoticed. *)
Lemma debounce_idle_effect (s : state) :
  quiet s -> enabled TIMER2_COMPA s = false -> enabled TIMER2_COMPB s = false ->
  let s' := step (Period Timer2) s in
  view s' = view s /\ enabled TIMER2_COMPA s' = false /\ enabled TIMER2_COMPB s' = false.
Proof.
  intros Hq Ha Hb s'. subst s'. rewrite (debounce_idle_step s Hq Ha Hb).
  clear Hq. repeat split; registers s.
Qed.

Lemma debounce_idle_steps (n : nat) (s : state) :
  quiet s -> enabled TIMER2_COMPA s = false -> enabled TIMER2_COMPB s = false ->
  view (steps (repeat (Period Timer2) n) s) = view s.
Proof.
  revert s. induction n as [| n IH]; intros s Hq Ha Hb; [reflexivity |].
  destruct (debounce_idle_effect s Hq Ha Hb) as (Hv & Ha' & Hb').
  cbn [repeat]. rewrite steps_cons.
  rewrite IH by (try apply quiet_step; assumption). exact Hv.
Qed.

Lemma panel_held (s : state) :
  quiet s -> pins_ok s -> level (pad_of __panelButton s) = HIGH ->
  enabled TIMER2_COMPA s = false ->
  let s1 := steps [Wire __panelButton LOW; Period Timer2] s in
  let s2 := steps [Wire __panelButton HIGH; Period Timer2] s1 in
  view s1 = arbitrate (PanelSettled true) (view s) /\ view s2 = view s1.
Proof.
  intros Hq Hp Hl Ha. cbv zeta. cbn [steps fold_left].
  pose proof (panel_press_effect s Hq Hp Hl) as H. cbv zeta in H.
  destruct H as (Hv & Hp1 & Hb1 & _ & Hl1 & Ha1). rewrite Ha in Ha1.
  pose proof (panel_settle_effect _ (quiet_step _ s) Ha1 Hb1) as H. cbv zeta in H.
  destruct H as (Hv2 & Ha2 & Hb2 & _ & Hp2). rewrite Hl1, Hv in Hv2.
  split; [exact Hv2 |].
  pose proof (panel_release_effect _ (quiet_step _ _) (Hp2 Hp1)) as H. cbv zeta in H.
  destruct H as (Hv3 & _ & _ & Ha3 & Hb3). rewrite Ha2 in Ha3. rewrite Hb2 in Hb3.
  pose proof (debounce_idle_effect _ (quiet_step _ _) Ha3 Hb3) as H. cbv zeta in H.
  destruct H as (Hv4 & _). rewrite Hv4. exact Hv3.
Qed.

Lemma panel_tap (g : nat) (s : state) :
  quiet s -> pins_ok s -> level (pad_of __panelButton s) = HIGH ->
  enabled TIMER2_COMPA s = false -> (g < 125)%nat ->
  view (steps (Wire __panelButton LOW :: repeat (Clock Timer2) g ++
               [Wire __panelButton HIGH; Period Timer2]) s) = view s.
Proof.
  intros Hq Hp Hl Ha Hg.
  rewrite steps_cons.
  pose proof (panel_press_effect s Hq Hp Hl) as H. cbv zeta in H.
  destruct H as (Hv & Hp1 & Hb1 & Hc1 & Hl1 & Ha1). rewrite Ha in Ha1.
  pose proof (quiet_step (Wire __panelButton LOW) s) as Hq1.
  revert Hv Hp1 Hb1 Hc1 Hl1 Ha1 Hq1. generalize (step (Wire __panelButton LOW) s).
  intros s1 Hv Hp1 Hb1 Hc1 Hl1 Ha1 Hq1.
  rewrite steps_app, (timer2_counts g s1 Hq1) by lia.
  destruct (counting_effect (TCNT2 s1 + Z.of_nat g) s1) as (Hv2 & Hp2 & Ha2 & Hb2 & _ & _).
  pose proof (quiet_counter Timer2 (TCNT2 s1 + Z.of_nat g) s1 Hq1) as Hq2.
  cbv zeta in *. cbn [counter] in Hq2.
  revert Hv2 Hp2 Ha2 Hb2 Hq2. generalize (wr TCNT2 (TCNT2 s1 + Z.of_nat g) s1).
  intros s2 Hv2 Hp2 Ha2 Hb2 Hq2. cbn [steps fold_left].
  pose proof (panel_release_effect s2 Hq2 (Hp2 Hp1)) as H. cbv zeta in H.
  destruct H as (Hv3 & Hp3 & Hl3 & Ha3 & Hb3).
  rewrite Ha2, Ha1 in Ha3. rewrite Hb2, Hb1 in Hb3.
  pose proof (panel_settle_effect _ (quiet_step _ _) Ha3 Hb3) as H. cbv zeta in H.
  destruct H as (Hv4 & _). rewrite Hl3 in Hv4. rewrite Hv4, Hv3, Hv2, Hv.
  destruct (view s); reflexivity.
Qed.

(** X2.  The panel button acts on a held press only.  From any state the
    real machine reaches with the button released and the manual debounce not
    armed: a press held through the debounce delay is the arbiter's move for
    a pressed panel button; letting the button go afterwards changes nothing,
    since the rising edge requests no interrupt; and a tap that is released
    before the delay has elapsed changes nothing at all. *)
Theorem panel_button_debounced (tr : list action) (g : nat) :
  let s := steps tr boot in
  level (pad_of __panelButton s) = HIGH -> enabled TIMER2_COMPA s = false ->
  (g < 125)%nat ->
  let held := steps [Wire __panelButton LOW; Period Timer2] s in
  let let_go := steps [Wire __panelButton HIGH; Period Timer2] held in
  let tapped := steps (Wire __panelButton LOW :: repeat (Clock Timer2) g ++
                       [Wire __panelButton HIGH; Period Timer2]) s in
  view held = arbitrate (PanelSettled true) (view s) /\
  view let_go = view held /\
  view tapped = view s.
Proof.
  intros s Hl Ha Hg.
  pose proof (quiet_steps tr boot quiet_boot) as Hq.
  pose proof (pins_ok_steps tr boot pins_ok_boot) as Hp.
  pose proof (panel_held s Hq Hp Hl Ha) as H.
  pose proof (panel_tap g s Hq Hp Hl Ha Hg) as H'.
  exact (conj (proj1 H) (conj (proj2 H) H')).
Qed.

Lemma manual_settle_keeps_drain (b : bool) (s s' : state) :
  view s' = arbitrate (ManualSettled b) (view s) -> draining s' = draining s.
Proof.
  intros H. change (drain (view s') = drain (view s)). rewrite H.
  destruct (view s) as [mt dt dr vo out dc], b, mt, dt, dr, vo; reflexivity.
Qed.

(** X3.  A press of the panel button is lost when the manual debounce is
    armed with it.  The two delays run on the same compare match and the manual
    routine is served first; its self-disabling write clears the whole of
    [TIMSK2], so the panel routine is not run: the arbiter makes the manual
    move only, [draining] keeps its value, the panel vector is left disabled
    with the button still in the position it had, and no later compare match
    of timer 2 brings the press back. *)
Theorem panel_press_lost_to_manual_debounce (tr : list action) (n : nat) :
  let s := steps tr boot in
  enabled TIMER2_COMPA s = true -> enabled TIMER2_COMPB s = true ->
  let s' := step (Period Timer2) s in
  view s' = arbitrate (ManualSettled (negb (level (pad_of __manualTrigger s)))) (view s) /\
  draining s' = draining s /\
  enabled TIMER2_COMPB s' = false /\
  pad_of __panelButton s' = pad_of __panelButton s /\
  view (steps (repeat (Period Timer2) n) s') = view s'.
Proof.
  intros s Ha Hb.
  pose proof (quiet_steps tr boot quiet_boot) as Hq.
  pose proof (manual_settle_effect s Hq Ha) as H. cbv zeta in H.
  destruct H as (Hv & Ha' & Hb' & Hpad).
  pose proof (debounce_idle_steps n _ (quiet_step (Period Timer2) s) Ha' Hb') as Hn.
  exact (conj Hv (conj (manual_settle_keeps_drain _ _ _ Hv) (conj Hb' (conj Hpad Hn)))).
Qed.

(** ** The digital trigger *)

Lemma digital_edge_effect (s : state) :
  quiet s -> ddr (pad_of __digitalTrigger s) = false ->
  let v := negb (level (pad_of __digitalTrigger s)) in
  view (step (Wire __digitalTrigger v) s) = arbitrate (DigitalDecoded v) (view s).
Proof.
  intros Hq Hd v. subst v. rewrite (digital_edge_step s Hq Hd).
  change (interrupt INT5 ?x) with (act (Serve INT5) x).
  rewrite !act_arbitrates. cbn [move_of arbitrate].
  replace (pending INT5 _) with true by (symmetry; clear Hq; registers s).
  replace (level (pad_of __digitalTrigger (act _ s)))
    with (negb (level (pad_of __digitalTrigger s))) by (clear Hq; registers s).
  destruct (view s); reflexivity.
Qed.

Lemma decoded_level (v : bool) (s s' : state) :
  arbiter_ok s' -> view s' = arbitrate (DigitalDecoded v) (view s) ->
  digitalTrigger s' = v /\ valveOpen s' = manualTrigger s || v || draining s.
Proof.
  unfold arbiter_ok, consistent. intros [Hc _] H.
  change (digital (view s') = v /\
          valve (view s') = manual (view s) || v || drain (view s)).
  rewrite Hc, H. destruct (view s) as [mt dt dr vo out dc], v, mt, dt, dr, vo; split; reflexivity.
Qed.

(** X4.  The digital trigger is not debounced.  From any state the real
    machine reaches in which pin D3 is an input, a change of the trigger line
    is decoded in the same step: the arbiter makes the move of the new level,
    [digitalTrigger] equals the new level, and the valve is open exactly when
    the manual flag, the new level or the drain flag holds it open. *)
Theorem digital_edge_acts_at_once (tr : list action) :
  let s := steps tr boot in
  ddr (pad_of __digitalTrigger s) = false ->
  let v := negb (level (pad_of __digitalTrigger s)) in
  let s' := step (Wire __digitalTrigger v) s in
  view s' = arbitrate (DigitalDecoded v) (view s) /\
  digitalTrigger s' = v /\
  valveOpen s' = manualTrigger s || v || draining s.
Proof.
  intros s Hd.
  pose proof (digital_edge_effect s (quiet_steps tr boot quiet_boot) Hd) as H.
  pose proof (arbiter_ok_steps (tr ++ [Wire __digitalTrigger
                (negb (level (pad_of __digitalTrigger s)))]) boot arbiter_ok_boot) as Hok.
  rewrite steps_app in Hok.
  exact (conj H (decoded_level _ _ _ Hok H)).
Qed.

(** ** The hit level *)

(** Whenever the gate is at the hit level the hold timer is enabled. *)
Lemma hit_armed_act (a : action) (s : state) :
  arbiter_ok s ->
  (output s = hitVoltage -> enabled TIMER4_COMPA s = true) ->
  output (act a s) = hitVoltage -> enabled TIMER4_COMPA (act a s) = true.
Proof.
  unfold arbiter_ok, consistent. destruct a as [p v | t | t | v | m].
  - destruct p; open_state s; eval_model; tauto.
  - destruct t; open_state s; eval_model; tauto.
  - destruct t; open_state s; eval_model; tauto.
  - unfold act, interrupt. destruct (pending v s); [| tauto].
    destruct v; by_cases s; bits; intros [Hc Hp] Ha Hout;
      first [ reflexivity | exact (Ha Hout) | discriminate Hout
            | rewrite Hp in Hout; discriminate Hout
            | destruct Hp as [Hp | Hp]; rewrite Hp in Hout; discriminate Hout ].
  - destruct m; open_state s; eval_model; tauto.
Qed.

Lemma hit_armed_run (tr : list action) :
  output (run tr boot) = hitVoltage -> enabled TIMER4_COMPA (run tr boot) = true.
Proof.
  induction tr as [| a tr IH] using rev_ind.
  - discriminate.
  - rewrite run_snoc. apply hit_armed_act; [apply arbiter_ok_run | exact IH].
Qed.

Lemma hold_delay_effect (s : state) :
  quiet s -> arbiter_ok s -> enabled TIMER4_COMPA s = true -> output s = hitVoltage ->
  let s' := step (Period Timer4) s in
  output s' = holdVoltage /\ valveOpen s' = true /\ enabled TIMER4_COMPA s' = false.
Proof.
  intros Hq Hok He Hout s'. subst s'. rewrite (hold_delay_step s Hq He).
  assert (Hp : pending TIMER4_COMPA (act (Period Timer4) s) = true)
    by (clear Hq Hok Hout; registers s).
  unfold interrupt. rewrite Hp. clear Hp Hq.
  revert Hok He Hout. unfold arbiter_ok, consistent.
  by_cases s; bits; intros [Hc Hp] He Hout; repeat split;
    first [ reflexivity | rewrite Hp in Hout; discriminate Hout ].
Qed.

(** X5.  The hit level cannot last.  In every state the real machine
    reaches with the output at the hit level the hold timer interrupt is
    enabled, and the next compare match of timer 4 takes the output to the
    hold level with the valve still open and disables that interrupt. *)
Theorem hit_level_ends_with_hold_delay (tr : list action) :
  let s := steps tr boot in
  output s = hitVoltage ->
  let s' := step (Period Timer4) s in
  enabled TIMER4_COMPA s = true /\
  output s' = holdVoltage /\ valveOpen s' = true /\ enabled TIMER4_COMPA s' = false.
Proof.
  intros s Hout.
  assert (He : enabled TIMER4_COMPA s = true).
  { revert Hout. subst s. destruct (steps_is_run tr boot) as [tr' ->]. apply hit_armed_run. }
  exact (conj He (hold_delay_effect s (quiet_steps tr boot quiet_boot)
                    (arbiter_ok_steps tr boot arbiter_ok_boot) He Hout)).
Qed.

(** The stages of the power level. *)
Lemma power_stages (m : move) (x : arbiter) :
  consistent x ->
  let y := arbitrate m x in
  (power y = hitVoltage -> power x = hitVoltage \/ valve x = false) /\
  (power x = holdVoltage -> valve y = true -> power y = holdVoltage).
Proof.
  unfold consistent. arbiter_cases x m; unfold hitVoltage, holdVoltage in *;
    intuition (try discriminate; try congruence).
Qed.

(** X6.  Along every run, an action that leaves the output at the hit level
    either found it there or found the valve closed: the hit level is applied
    by an opening and by nothing else.  And an action that finds the output at
    the hold level and leaves the valve open leaves the output at the hold
    level: a source that joins or leaves an open valve never brings the hit
    level back. *)
Theorem hit_level_only_on_opening (tr : list action) (a : action) :
  let s := run tr boot in
  let s' := act a s in
  (output s' = hitVoltage -> output s = hitVoltage \/ valveOpen s = false) /\
  (output s = holdVoltage -> valveOpen s' = true -> output s' = holdVoltage).
Proof.
  intros s s'.
  pose proof (power_stages (move_of a s) (view s) (arbiter_ok_run tr)) as H.
  rewrite <- act_arbitrates in H. exact H.
Qed.

(** ** The lamp *)

Lemma lamp_act (a : action) (s : state) :
  writes_LED a = false ->
  ddr (pad_of __LED s) = true /\ port (pad_of __LED s) = valveOpen s ->
  ddr (pad_of __LED (act a s)) = true /\ port (pad_of __LED (act a s)) = valveOpen (act a s).
Proof.
  destruct a as [p v | t | t | v | m]; intros Hw.
  - destruct p; open_state s; eval_model; tauto.
  - destruct t; open_state s; eval_model; tauto.
  - destruct t; open_state s; eval_model; tauto.
  - unfold act, interrupt. destruct (pending v s); [| tauto].
    destruct v; by_cases s; intros [? ?]; split; congruence.
  - destruct m; try discriminate Hw; open_state s; eval_model; tauto.
Qed.

Lemma lamp_run (tr : list action) (s : state) :
  forallb (fun a => negb (writes_LED a)) tr = true ->
  ddr (pad_of __LED s) = true /\ port (pad_of __LED s) = valveOpen s ->
  lamp (run tr s) = valveOpen (run tr s).
Proof.
  revert s. induction tr as [| a tr IH]; intros s Hw H.
  - unfold lamp, level. cbn [run fold_left]. destruct H as [-> H]. exact H.
  - cbn [forallb] in Hw. apply andb_true_iff in Hw. destruct Hw as [Ha Hw].
    apply negb_true_iff in Ha. apply (IH (act a s) Hw), lamp_act; assumption.
Qed.

(** X7.  As long as the main loop does not write the lamp itself (it does
    so around every reading of the scale), the lamp on pin D9 is lit exactly
    when [valveOpen] is true, after every run. *)
Theorem lamp_mirrors_valve (tr : list action) :
  forallb (fun a => negb (writes_LED a)) tr = true ->
  lamp (run tr boot) = valveOpen (run tr boot).
Proof. intros H. apply lamp_run; [exact H | split; reflexivity]. Qed.

(** ** The drain watchdog *)

Lemma drain_bounded_arbiter (m : move) (x : arbiter) :
  (drain x = true -> 0 <= cycles x <= maxDrainCycles) ->
  drain (arbitrate m x) = true -> 0 <= cycles (arbitrate m x) <= maxDrainCycles.
Proof.
  destruct x as [mt dt dr vo out dc].
  destruct m as [| [] | [] | [] | |], mt, dt, dr, vo; cbn;
    try (destruct (uint (dc + 1) >? maxDrainCycles) eqn:E; cbn);
    intros H H';
    first [ discriminate H' | apply H; reflexivity | unfold maxDrainCycles; lia
          | split; [ unfold uint; apply Z.mod_pos_bound; lia
                   | rewrite Z.gtb_ltb in E; apply Z.ltb_ge in E; exact E ] ].
Qed.

(** X8.  Along every run, while [draining] is true the drain counter stays
    between zero and [maxDrainCycles]. *)
Theorem drain_counter_bounded (tr : list action) :
  let s := run tr boot in
  draining s = true -> 0 <= drainCycles s <= maxDrainCycles.
Proof.
  induction tr as [| a tr IH] using rev_ind.
  - discriminate.
  - rewrite run_snoc. cbv zeta in *.
    pose proof (drain_bounded_arbiter (move_of a (run tr boot)) (view (run tr boot)) IH) as H.
    rewrite <- act_arbitrates in H. exact H.
Qed.

(** *** The watchdog outside calibration *)

Lemma guarded_act (a : action) (s : state) :
  arms_sequencer a = false ->
  enabled TIMER1_COMPB s = false /\ (draining s = true -> enabled TIMER1_COMPA s = true) ->
  enabled TIMER1_COMPB (act a s) = false /\
  (draining (act a s) = true -> enabled TIMER1_COMPA (act a s) = true).
Proof.
  destruct a as [p v | t | t | v | m]; intros Hw.
  - destruct p; open_state s; eval_model; tauto.
  - destruct t; open_state s; eval_model; tauto.
  - destruct t; open_state s; eval_model; tauto.
  - unfold act, interrupt. destruct (pending v s) eqn:Hp; [| tauto].
    destruct v; revert Hp; by_cases s; bits; intros Hp [Hb Ha]; split;
      first [ reflexivity | assumption | congruence
            | rewrite Hb in Hp; rewrite andb_false_r in Hp; discriminate Hp
            | intros; first [ reflexivity | congruence | auto ] ].
  - destruct m; try discriminate Hw; open_state s; eval_model; tauto.
Qed.

Lemma guarded_run (tr : list action) (s : state) :
  forallb (fun a => negb (arms_sequencer a)) tr = true ->
  enabled TIMER1_COMPB s = false /\ (draining s = true -> enabled TIMER1_COMPA s = true) ->
  enabled TIMER1_COMPB (run tr s) = false /\
  (draining (run tr s) = true -> enabled TIMER1_COMPA (run tr s) = true).
Proof.
  revert s. induction tr as [| a tr IH]; intros s Hw H; [exact H |].
  cbn [forallb] in Hw. apply andb_true_iff in Hw. destruct Hw as [Ha Hw].
  apply negb_true_iff in Ha. apply (IH (act a s) Hw), guarded_act; assumption.
Qed.

(** X9.  In every run in which the main loop never enables the calibration
    routine, a running drain has its watchdog: whenever [draining] is true
    the interrupt of [TIMER1_COMPA_vect] is enabled. *)
Theorem watchdog_armed_outside_calibration (tr : list action) :
  forallb (fun a => negb (arms_sequencer a)) tr = true ->
  let s := run tr boot in
  draining s = true -> enabled TIMER1_COMPA s = true.
Proof.
  intros Hw. apply (guarded_run tr boot Hw). split; [reflexivity | discriminate].
Qed.

(** *** A drain without its watchdog *)

Lemma unguarded_act (a : action) (s : state) :
  settles_panel a = false -> unguarded s -> unguarded (act a s).
Proof.
  unfold unguarded. destruct a as [p v | t | t | v | m]; intros Hw.
  - destruct p; open_state s; eval_model; tauto.
  - destruct t; open_state s; eval_model; tauto.
  - destruct t; open_state s; eval_model; tauto.
  - unfold act, interrupt. destruct (pending v s) eqn:Hp; [| tauto].
    destruct v; try discriminate Hw; revert Hp; by_cases s; bits; intros Hp [Hd Ha]; split;
      first [ reflexivity | assumption | congruence
            | rewrite Ha in Hp; rewrite andb_false_r in Hp; discriminate Hp ].
  - destruct m; open_state s; eval_model; bits; tauto.
Qed.

Lemma unguarded_run (tr : list action) (s : state) :
  forallb (fun a => negb (settles_panel a)) tr = true ->
  unguarded s -> unguarded (run tr s).
Proof.
  revert s. induction tr as [| a tr IH]; intros s Hw H; [exact H |].
  cbn [forallb] in Hw. apply andb_true_iff in Hw. destruct Hw as [Ha Hw].
  apply negb_true_iff in Ha. apply (IH (act a s) Hw), unguarded_act; assumption.
Qed.

Lemma sequence_end_effect (s : state) :
  draining s = true -> pending TIMER1_COMPB s = true ->
  (uint (releaseCount s + 1) <? maxReleases s) = false ->
  let s1 := act (Serve TIMER1_COMPB) s in
  sequenceComplete s1 = true /\ unguarded s1.
Proof.
  intros Hd Hp Hc. cbn [act]. unfold interrupt, unguarded. rewrite Hp. clear Hp.
  revert Hd Hc. open_state s. eval_model. intros -> ->. bits. repeat split.
Qed.

Lemma draining_open (s : state) : arbiter_ok s -> draining s = true -> valveOpen s = true.
Proof.
  unfold arbiter_ok, consistent, view. cbn [valve manual digital drain].
  intros [-> _] ->. apply orb_true_r.
Qed.

Lemma arbiter_ok_from (tr : list action) (s : state) :
  arbiter_ok s -> arbiter_ok (run tr s).
Proof.
  revert s. induction tr as [| a tr IH]; intros s H; [exact H |].
  apply (IH (act a s)), arbiter_ok_act, H.
Qed.

(** X10.  The end of a calibration sequence switches the drain watchdog
    off.  If the last firing of the 1 Hz calibration routine is served
    while a drain is running, its write [TIMSK1 &= (0 << OCIE1B)] clears the
    watchdog's enable bit too and [draining] stays true; from then on, whatever
    happens short of the panel-button routine being served, the drain keeps
    running without its watchdog and the valve stays open. *)
Theorem sequence_end_leaves_drain_unguarded (tr0 tr : list action) :
  let s := run tr0 boot in
  draining s = true -> pending TIMER1_COMPB s = true ->
  (uint (releaseCount s + 1) <? maxReleases s) = false ->
  forallb (fun a => negb (settles_panel a)) tr = true ->
  let s1 := act (Serve TIMER1_COMPB) s in
  let s2 := run tr s1 in
  sequenceComplete s1 = true /\ unguarded s1 /\ unguarded s2 /\ valveOpen s2 = true.
Proof.
  intros s Hd Hp Hc Hw.
  destruct (sequence_end_effect s Hd Hp Hc) as [H1 H2].
  pose proof (unguarded_run tr _ Hw H2) as H3.
  refine (conj H1 (conj H2 (conj H3 _))).
  apply draining_open; [| apply H3].
  apply arbiter_ok_from, arbiter_ok_act, arbiter_ok_run.
Qed.

(** *** A calibration sequence without its routine *)

Lemma stalled_act (a : action) (s : state) :
  is_main a = false -> stalled s -> stalled (act a s).
Proof.
  unfold stalled. destruct a as [p v | t | t | v | m]; intros Hw.
  - destruct p; open_state s; eval_model; tauto.
  - destruct t; open_state s; eval_model; tauto.
  - destruct t; open_state s; eval_model; tauto.
  - unfold act, interrupt. destruct (pending v s) eqn:Hp; [| tauto].
    destruct v; revert Hp; by_cases s; bits; intros Hp [Hd Ha]; split;
      first [ reflexivity | assumption | congruence
            | rewrite Ha in Hp; rewrite andb_false_r in Hp; discriminate Hp ].
  - discriminate Hw.
Qed.

Lemma stalled_run (tr : list action) (s : state) :
  forallb (fun a => negb (is_main a)) tr = true -> stalled s -> stalled (run tr s).
Proof.
  revert s. induction tr as [| a tr IH]; intros s Hw H; [exact H |].
  cbn [forallb] in Hw. apply andb_true_iff in Hw. destruct Hw as [Ha Hw].
  apply negb_true_iff in Ha. apply (IH (act a s) Hw), stalled_act; assumption.
Qed.

Lemma drain_end_effect (a : action) (s : state) :
  sequenceComplete s = false -> draining s = true -> draining (act a s) = false ->
  stalled (act a s).
Proof.
  unfold stalled. destruct a as [p v | t | t | v | m].
  - destruct p; open_state s; eval_model; congruence.
  - destruct t; open_state s; eval_model; congruence.
  - destruct t; open_state s; eval_model; congruence.
  - unfold act, interrupt. destruct (pending v s); [| congruence].
    destruct v; by_cases s; bits; intros; split; first [ reflexivity | congruence ].
  - destruct m; open_state s; eval_model; congruence.
Qed.

(** X11.  Ending a drain stalls a calibration sequence that is under way.
    Whatever action ends the drain (the panel-button routine or the
    watchdog), if [sequenceComplete] is false at that moment then the 1 Hz
    calibration routine is left disabled with [sequenceComplete] false, and
    this stays so for as long as the main loop executes no statement: the
    busy wait of [loop()] on [sequenceComplete] does not end. *)
Theorem drain_end_stalls_calibration (tr0 tr : list action) (a : action) :
  let s := run tr0 boot in
  let s1 := act a s in
  sequenceComplete s = false -> draining s = true -> draining s1 = false ->
  forallb (fun a' => negb (is_main a')) tr = true ->
  stalled s1 /\ stalled (run tr s1).
Proof.
  intros s s1 Hc Hd Hd' Hw.
  pose proof (drain_end_effect a s Hc Hd Hd') as H.
  exact (conj H (stalled_run tr _ Hw H)).
Qed.

(** ** Service comes to rest *)

Lemma service_stable (k n : nat) (s : state) :
  quiet (service k s) -> service (k + n) s = service k s.
Proof.
  revert s. induction k as [| k IH]; intros s H.
  - cbn [service] in H. apply service_rest, H.
  - cbn [service Nat.add] in *. destruct (next s) as [v |]; [apply IH, H | reflexivity].
Qed.

(** X12.  Interrupt service comes to rest.  From any state whatever,
    serving the pending interrupts by priority leaves none pending after at
    most sixteen routines, and further service changes nothing: no routine
    requests itself again and the only request a routine makes is the one for
    INT5. *)
Theorem service_comes_to_rest (s : state) (n : nat) :
  quiet (service 16 s) /\ service (16 + n) s = service 16 s.
Proof.
  assert (H : quiet (service 16 s)).
  { apply service_settles. pose proof (backlog_bounds s). lia. }
  split; [exact H | apply service_stable, H].
Qed.

(** ** Who writes the flags *)

Lemma move_of_manual (a : action) (s : state) (b : bool) :
  move_of a s = ManualSettled b -> a = Serve TIMER2_COMPA.
Proof.
  destruct a as [q v | t | t | v | m]; try discriminate.
  unfold move_of. destruct (pending v s); [| discriminate].
  destruct v; try discriminate. reflexivity.
Qed.

Lemma move_of_digital (a : action) (s : state) (b : bool) :
  move_of a s = DigitalDecoded b -> a = Serve INT5.
Proof.
  destruct a as [q v | t | t | v | m]; try discriminate.
  unfold move_of. destruct (pending v s); [| discriminate].
  destruct v; try discriminate. reflexivity.
Qed.

Lemma flag_writers_arbiter (m : move) (x : arbiter) :
  let y := arbitrate m x in
  (manual y <> manual x -> exists b, m = ManualSettled b) /\
  (digital y <> digital x -> exists b, m = DigitalDecoded b) /\
  (drain y <> drain x -> m = PanelSettled true \/ m = CoarseTick).
Proof.
  arbiter_cases x m; repeat split; intros H;
    first [ contradiction H; reflexivity | eexists; reflexivity | auto ].
Qed.

Lemma calibration_writers (a : action) (s : state) :
  let s' := act a s in
  (sequenceComplete s' = true -> sequenceComplete s = false -> a = Serve TIMER1_COMPB) /\
  (inCalibration s' <> inCalibration s -> exists v, a = Main (write_inCalibration v)).
Proof.
  destruct a as [p v | t | t | v | m].
  - destruct p; open_state s; eval_model; (split; [congruence | tauto]).
  - destruct t; open_state s; eval_model; (split; [congruence | tauto]).
  - destruct t; open_state s; eval_model; (split; [congruence | tauto]).
  - cbn [act]. unfold interrupt. destruct (pending v s); cbv zeta;
      [| split; [congruence | tauto]].
    destruct v; by_cases s; split; first [ reflexivity | congruence | tauto ].
  - destruct m; open_state s; eval_model; split;
      first [ congruence | tauto | intros _; eexists; reflexivity ].
Qed.

(** X13.  Every flag has its writers.  For every action on every state:
    [manualTrigger] changes only when [TIMER2_COMPA_vect] is served,
    [digitalTrigger] only when [INT5_vect] is served, [draining] only when
    [TIMER2_COMPB_vect] or [TIMER1_COMPA_vect] is served; [sequenceComplete]
    becomes true only when [TIMER1_COMPB_vect] is served; and [inCalibration]
    changes only by the main loop's own assignment. *)
Theorem flags_have_one_writer (a : action) (s : state) :
  let s' := act a s in
  (manualTrigger s' <> manualTrigger s -> a = Serve TIMER2_COMPA) /\
  (digitalTrigger s' <> digitalTrigger s -> a = Serve INT5) /\
  (draining s' <> draining s -> a = Serve TIMER2_COMPB \/ a = Serve TIMER1_COMPA) /\
  (sequenceComplete s' = true -> sequenceComplete s = false -> a = Serve TIMER1_COMPB) /\
  (inCalibration s' <> inCalibration s -> exists v, a = Main (write_inCalibration v)).
Proof.
  intros s'.
  pose proof (flag_writers_arbiter (move_of a s) (view s)) as H.
  rewrite <- act_arbitrates in H. cbv zeta in H. destruct H as (Hm & Hd & Hr).
  destruct (calibration_writers a s) as (Hs & Hi).
  split; [| split; [| split; [| split; [exact Hs | exact Hi]]]].
  - intros H. destruct (Hm H) as [b Hb]. exact (move_of_manual _ _ _ Hb).
  - intros H. destruct (Hd H) as [b Hb]. exact (move_of_digital _ _ _ Hb).
  - intros H. destruct (Hr H) as [Hb | Hb].
    + left. exact (move_of_panel _ _ _ Hb).
    + right. exact (move_of_coarse_tick _ _ Hb).
Qed.

(** ** The synthetic trigger goes through INT5 *)

Lemma next_above (s : state) (v w : vector) :
  next s = Some v -> (priority w < priority v)%nat -> pending w s = false.
Proof.
  unfold next, vectors. cbn [find].
  repeat match goal with
         | |- context [if pending ?u s then _ else _] => destruct (pending u s) eqn:?
         end;
    intros H; try discriminate H; injection H as <-; destruct w; cbn; intros Hw;
    first [ lia | assumption ].
Qed.

Ltac recall_next H s v :=
  pose proof (next_pending s v H) as Hpend;
  pose proof (fun w => next_above s v w H) as Hq;
  pose proof (Hq INT3); pose proof (Hq INT4); pose proof (Hq INT5);
  pose proof (Hq TIMER2_COMPA); pose proof (Hq TIMER2_COMPB);
  pose proof (Hq TIMER1_COMPA); pose proof (Hq TIMER1_COMPB);
  pose proof (Hq TIMER4_COMPA); pose proof (Hq TIMER5_COMPA); clear Hq H;
  cbn [priority] in *;
  repeat match goal with
         | H : (?a < ?b)%nat -> _ |- _ =>
             first [ specialize (H ltac:(lia)) | clear H ]
         end.

(** X14.  The start of a calibration pulse reaches the valve through
    INT5.  When the 1 Hz calibration routine is the next to be served, the
    incremented count is below [maxReleases], the trigger line is low and
    [digitalTrigger] is false, then the routine's write to pin D3 requests
    INT5, which is served next; after it the line is high, [tickCounter] is
    zero, the arbiter has made the move of a high digital trigger,
    [digitalTrigger] is true and the valve is open. *)
Theorem pulse_start_opens_valve (s : state) :
  next s = Some TIMER1_COMPB ->
  (uint (releaseCount s + 1) <? maxReleases s) = true ->
  trigger_line s = LOW -> digitalTrigger s = false ->
  let s1 := interrupt TIMER1_COMPB s in
  let s2 := interrupt INT5 s1 in
  next s1 = Some INT5 /\
  trigger_line s2 = HIGH /\ tickCounter s2 = 0 /\
  view s2 = arbitrate (DigitalDecoded true) (view s) /\
  digitalTrigger s2 = true /\ valveOpen s2 = true.
Proof.
  intros Hn Hc Hl Hd. recall_next Hn s TIMER1_COMPB. cbv zeta.
  assert (Hp : pending INT5 (interrupt TIMER1_COMPB s) = true).
  { unfold interrupt. rewrite Hpend.
    unfold trigger_line in Hl. revert Hc Hl. open_state s. eval_model.
    intros -> Hl. split_bools; bits; first [reflexivity | discriminate Hl]. }
  split.
  - apply next_highest; [exact Hp |].
    intros w Hw. destruct w; cbn in Hw; try lia;
      unfold interrupt; rewrite Hpend; clear Hpend Hp;
      revert Hc; open_state s; eval_model; intros ->; cbv beta iota; subst;
      split_bools; bits; first [ finish | split_testbits; finish ].
  - unfold interrupt at 1 3 5 7 9. rewrite Hp. clear Hp.
    unfold interrupt. rewrite Hpend. clear Hpend.
    unfold trigger_line in *. revert Hc Hl Hd. open_state s. eval_model.
    intros -> Hl ->. split_bools; repeat split; try discriminate Hl.
Qed.

(** X15.  The end of a calibration pulse reaches the valve through INT5.
    When the 1 kHz routine is the next to be served, [tickCounter] exceeds
    [maxTicks] and the routine drives pin D3 high, then its write of a low
    level requests INT5, which is served next; after it the line is low, the
    1 kHz interrupt is disabled, the arbiter has made the move of a low digital
    trigger and [digitalTrigger] is false. *)
Theorem pulse_end_releases_valve (s : state) :
  next s = Some TIMER5_COMPA ->
  (tickCounter s >? maxTicks s) = true ->
  ddr (pad_of __digitalTrigger s) = true -> trigger_line s = HIGH ->
  digitalTrigger s = true ->
  let s1 := interrupt TIMER5_COMPA s in
  let s2 := interrupt INT5 s1 in
  next s1 = Some INT5 /\
  trigger_line s2 = LOW /\ enabled TIMER5_COMPA s2 = false /\
  view s2 = arbitrate (DigitalDecoded false) (view s) /\
  digitalTrigger s2 = false.
Proof.
  intros Hn Hc Ho Hl Hd. recall_next Hn s TIMER5_COMPA. cbv zeta.
  assert (Hp : pending INT5 (interrupt TIMER5_COMPA s) = true).
  { unfold interrupt. rewrite Hpend.
    unfold trigger_line in Hl. revert Hc Ho Hl. open_state s. eval_model.
    intros -> -> ->. bits. reflexivity. }
  split.
  - apply next_highest; [exact Hp |].
    intros w Hw. destruct w; cbn in Hw; try lia;
      unfold interrupt; rewrite Hpend; clear Hpend Hp;
      revert Hc; open_state s; eval_model; intros ->; cbv beta iota; subst;
      split_bools; bits; first [ finish | split_testbits; finish ].
  - unfold interrupt at 1 3 5 7. rewrite Hp. clear Hp.
    unfold interrupt. rewrite Hpend. clear Hpend.
    unfold trigger_line in *. revert Hc Ho Hl Hd. open_state s. eval_model.
    intros -> -> -> ->. split_bools; bits; repeat split.
Qed.

(** ** The idle machine *)

Lemma asleep_setup (l2 l3 l18 : bool) :
  let s := setup (power_up l2 l3 l18) in
  asleep s /\ view s = Arbiter false false false false 0 0 /\ lamp s = LOW.
Proof. split; [intros []; destruct l2, l3, l18; reflexivity | split; reflexivity]. Qed.

Lemma asleep_quiet (s : state) : asleep s -> quiet s.
Proof.
  intros H. apply next_quiet. intros v. specialize (H v). unfold pending.
  destruct v; cbn [timer_of] in H; rewrite H; try reflexivity; apply andb_false_r.
Qed.

Lemma asleep_tick (a : action) (s : state) :
  ticks_only a = true -> asleep s ->
  asleep (act a s) /\ view (act a s) = view s /\ lamp (act a s) = lamp s.
Proof.
  intros Ha H. split; [| destruct a as [p v | t | t | v | m]; try discriminate Ha;
                          destruct t; open_state s; split; reflexivity].
  intros w. specialize (H w).
  destruct a as [p v | t | t | v | m]; try discriminate Ha;
    destruct t, w; cbn [timer_of] in *; revert H; open_state s; exact (fun H => H).
Qed.

Lemma asleep_steps (tr : list action) (s : state) :
  forallb ticks_only tr = true -> asleep s ->
  asleep (steps tr s) /\ view (steps tr s) = view s /\ lamp (steps tr s) = lamp s.
Proof.
  revert s. induction tr as [| a tr IH]; intros s Hw H; [auto |].
  cbn [forallb] in Hw. apply andb_true_iff in Hw. destruct Hw as [Ha Hw].
  destruct (asleep_tick a s Ha H) as (H1 & H2 & H3).
  rewrite steps_cons.
  assert (E : step a s = act a s) by (apply service_rest, asleep_quiet, H1).
  rewrite E. destruct (IH (act a s) Hw H1) as (I1 & I2 & I3).
  rewrite I2, I3. auto.
Qed.

(** X16.  After [setup()], whatever the positions of the contacts at
    power-on, time alone does nothing: as long as the timers count and
    no pin changes, the source flags are false, the valve is closed with
    output 0, the lamp is dark, no interrupt is pending and every timer
    interrupt is disabled.  A trigger that is already asserted at power-on is
    not seen. *)
Theorem idle_machine_stays_closed (l2 l3 l18 : bool) (tr : list action) :
  forallb ticks_only tr = true ->
  let s := steps tr (setup (power_up l2 l3 l18)) in
  view s = Arbiter false false false false 0 0 /\ lamp s = LOW /\ quiet s /\
  (forall v, timer_of v <> None -> enabled v s = false).
Proof.
  intros Hw.
  destruct (asleep_setup l2 l3 l18) as (H0 & V0 & L0).
  destruct (asleep_steps tr _ Hw H0) as (H1 & V1 & L1).
  cbv zeta. rewrite V1, L1.
  split; [exact V0 | split; [exact L0 | split; [apply asleep_quiet, H1 |]]].
  intros v Hv. specialize (H1 v). destruct (timer_of v); [exact H1 | contradiction].
Qed.

(** ** The levels of the gate *)

(** X17.  After every run the output is the hit or the hold level when
    [valveOpen] is true, and zero when it is false: the gate never sees any
    other value. *)
Theorem output_levels (tr : list action) :
  let s := run tr boot in
  (valveOpen s = true /\ (output s = hitVoltage \/ output s = holdVoltage)) \/
  (valveOpen s = false /\ output s = 0).
Proof.
  intros s. generalize (arbiter_ok_run tr). fold s.
  unfold arbiter_ok, consistent, view. cbn [valve power].
  destruct (valveOpen s); intros [_ H]; [left | right]; split; auto.
Qed.

(** ** A press and a release, from end to end *)











(** ** The start of a trial *)

Lemma service_twice (fuel : nat) (s : state) (v w : vector) :
  next s = Some v -> next (interrupt v s) = Some w ->
  quiet (interrupt w (interrupt v s)) ->
  service (S (S fuel)) s = interrupt w (interrupt v s).
Proof. intros H1 H2 H3. cbn [service]. rewrite H1, H2. apply service_rest, H3. Qed.

(** The statements that prepare a trial serve no interrupt. *)
Lemma prepare_step (m : statement) (s : state) :
  quiet s -> m <> enable_TIMER1_COMPB -> step (Main m) s = act (Main m) s.
Proof.
  intros Hq Hm. recall_quiet Hq s.
  destruct m; try contradiction; clear Hm; no_service s.
Qed.

Lemma prepare_steps (j : nat) (s : state) :
  quiet s ->
  steps (start_trial j) s =
  step (Main enable_TIMER1_COMPB)
    (run [Main (write_maxTicks j); Main write_releaseCount; Main (write_maxReleases j);
          Main write_sequenceComplete; Main write_TCNT1] s).
Proof.
  intros Hq. unfold start_trial.
  repeat (rewrite steps_cons, prepare_step by (try apply quiet_step; first [exact Hq | discriminate])).
  reflexivity.
Qed.

Lemma table_counts (j : nat) : (j < 10)%nat -> (1 <? uint (nth j numOpens 0)) = true.
Proof. intros H. do 10 (destruct j as [| j]; [reflexivity |]). lia. Qed.

Lemma start_latched_next (ticks count : Z) (s : state) :
  quiet s -> requested TIMER1_COMPB s = true ->
  next (start_sequence ticks count s) = Some TIMER1_COMPB.
Proof.
  intros Hq Hr. recall_quiet Hq s. apply next_highest.
  - revert Hr. unfold requested. open_state s. eval_model. intros ->. bits. reflexivity.
  - intros w Hw. destruct w; cbn in Hw; try lia; registers s.
Qed.

(** The calibration routine that starts a pulse requests INT5. *)
Lemma start_latched_INT5 (ticks count : Z) (s : state) :
  quiet s -> (1 <? uint count) = true -> trigger_line s = LOW ->
  next (TIMER1_COMPB_vect (acknowledge TIMER1_COMPB (start_sequence ticks count s))) =
  Some INT5.
Proof.
  intros Hq Hc Hl. unfold trigger_line in Hl. recall_quiet Hq s. apply next_highest.
  - revert Hc Hl. open_state s. eval_model. change ((0 + 1) mod 65536) with 1.
    intros -> Hl. split_bools; bits; first [reflexivity | discriminate Hl].
  - intros w Hw. destruct w; cbn in Hw; try lia;
      revert Hc; open_state s; eval_model; change ((0 + 1) mod 65536) with 1;
      intros ->; cbv beta iota; subst; split_bools; bits;
      first [ finish | split_testbits; finish ].
Qed.

Lemma start_latched_quiet (ticks count : Z) (s : state) :
  quiet s -> requested TIMER1_COMPB s = true -> (1 <? uint count) = true ->
  trigger_line s = LOW -> digitalTrigger s = false ->
  quiet (INT5_vect (acknowledge INT5 (TIMER1_COMPB_vect (acknowledge TIMER1_COMPB
           (start_sequence ticks count s))))).
Proof.
  intros Hq Hr Hc Hl Hd. apply next_quiet. intros w.
  unfold trigger_line, requested in *. recall_quiet Hq s.
  revert Hc Hl Hd Hr. destruct w; open_state s; eval_model;
    change ((0 + 1) mod 65536) with 1; intros -> Hl -> Hr;
    cbv beta iota; subst; split_bools; bits; first [ finish | split_testbits; finish ].
Qed.

(** What the two routines leave behind. *)
Lemma start_latched_state (ticks count : Z) (s : state) :
  (1 <? uint count) = true -> trigger_line s = LOW -> digitalTrigger s = false ->
  let s' := INT5_vect (acknowledge INT5 (TIMER1_COMPB_vect (acknowledge TIMER1_COMPB
              (start_sequence ticks count s)))) in
  releaseCount s' = 1 /\ sequenceComplete s' = false /\ tickCounter s' = 0 /\
  trigger_line s' = HIGH /\ digitalTrigger s' = true /\ valveOpen s' = true /\
  view s' = arbitrate (DigitalDecoded true) (view s).
Proof.
  unfold trigger_line. open_state s. eval_model.
  change ((0 + 1) mod 65536) with 1. intros -> Hl ->.
  split_bools; repeat split; discriminate Hl.
Qed.

(** Enabling the calibration routine with a compare match latched: the
    routine runs at once, and INT5 after it. *)
Lemma latched_start (ticks count : Z) (s : state) :
  quiet s -> requested TIMER1_COMPB s = true -> (1 <? uint count) = true ->
  trigger_line s = LOW -> digitalTrigger s = false ->
  service 16 (start_sequence ticks count s) =
  INT5_vect (acknowledge INT5 (TIMER1_COMPB_vect (acknowledge TIMER1_COMPB
    (start_sequence ticks count s)))).
Proof.
  intros Hq Hr Hc Hl Hd.
  pose proof (start_latched_next ticks count s Hq Hr) as Hn.
  pose proof (next_pending _ _ Hn) as Hp0.
  pose proof (start_latched_INT5 ticks count s Hq Hc Hl) as Hn1.
  pose proof (next_pending _ _ Hn1) as Hp1.
  assert (E0 : interrupt TIMER1_COMPB (start_sequence ticks count s) =
               TIMER1_COMPB_vect (acknowledge TIMER1_COMPB (start_sequence ticks count s)))
    by (unfold interrupt; rewrite Hp0; reflexivity).
  transitivity (interrupt INT5 (interrupt TIMER1_COMPB (start_sequence ticks count s))).
  - apply service_twice; [exact Hn | rewrite E0; exact Hn1 |].
    rewrite E0. unfold interrupt. rewrite Hp1. apply start_latched_quiet; assumption.
  - rewrite E0. unfold interrupt. rewrite Hp1. reflexivity.
Qed.

(** Without a compare match latched nothing is served. *)
Lemma unlatched_start (ticks count : Z) (s : state) :
  quiet s -> requested TIMER1_COMPB s = false ->
  let s0 := start_sequence ticks count s in
  service 16 s0 = s0 /\ view s0 = view s /\ releaseCount s0 = 0 /\
  enabled TIMER1_COMPB s0 = true /\ deadline TIMER1_COMPB s0 = OCR1B + 1.
Proof.
  intros Hq Hr. cbv zeta. split.
  - apply service_rest, next_quiet. intros w. unfold requested in Hr. recall_quiet Hq s.
    destruct w; registers s.
  - clear. open_state s. eval_model. bits. repeat split.
Qed.

Lemma trial_start_latched (j : nat) (s : state) :
  quiet s -> (j < 10)%nat -> trigger_line s = LOW -> digitalTrigger s = false ->
  requested TIMER1_COMPB s = true ->
  let s' := steps (start_trial j) s in
  releaseCount s' = 1 /\ sequenceComplete s' = false /\ tickCounter s' = 0 /\
  trigger_line s' = HIGH /\ digitalTrigger s' = true /\ valveOpen s' = true /\
  view s' = arbitrate (DigitalDecoded true) (view s).
Proof.
  intros Hq Hj Hl Hd Hr. cbv zeta.
  rewrite (prepare_steps j s Hq). unfold step.
  change (act (Main enable_TIMER1_COMPB) (run _ s))
    with (start_sequence (nth j openTime 0) (nth j numOpens 0) s).
  pose proof (table_counts j Hj) as Hc.
  rewrite (latched_start (nth j openTime 0) (nth j numOpens 0) s Hq Hr Hc Hl Hd).
  exact (start_latched_state (nth j openTime 0) (nth j numOpens 0) s Hc Hl Hd).
Qed.

Lemma trial_start_unlatched (j : nat) (s : state) :
  quiet s -> requested TIMER1_COMPB s = false ->
  let s' := steps (start_trial j) s in
  view s' = view s /\ releaseCount s' = 0 /\
  enabled TIMER1_COMPB s' = true /\ deadline TIMER1_COMPB s' = OCR1B + 1.
Proof.
  intros Hq Hr. cbv zeta.
  rewrite (prepare_steps j s Hq). unfold step.
  change (act (Main enable_TIMER1_COMPB) (run _ s))
    with (start_sequence (nth j openTime 0) (nth j numOpens 0) s).
  destruct (unlatched_start (nth j openTime 0) (nth j numOpens 0) s Hq Hr) as (E & H).
  rewrite E. exact H.
Qed.

(** X19.  The statements of [loop()] that start trial [j] leave the
    compare flag of the calibration routine alone.  From any state the real
    machine reaches: if a compare match of timer 1 is latched, the trigger line
    is low and [digitalTrigger] is false, the routine is served as soon as it
    is enabled and INT5 after it, so that the statements end with
    [releaseCount] at 1, the trigger line high, [digitalTrigger] true and the
    valve open; if no compare match is latched the statements serve nothing,
    the arbiter's variables stay as they were and the first firing is a full
    period of timer 1 away. *)
Theorem trial_starts_at_once_if_latched (tr : list action) (j : nat) :
  let s := steps tr boot in
  let s' := steps (start_trial j) s in
  ((j < 10)%nat -> trigger_line s = LOW -> digitalTrigger s = false ->
   requested TIMER1_COMPB s = true ->
   releaseCount s' = 1 /\ sequenceComplete s' = false /\ tickCounter s' = 0 /\
   trigger_line s' = HIGH /\ digitalTrigger s' = true /\ valveOpen s' = true /\
   view s' = arbitrate (DigitalDecoded true) (view s)) /\
  (requested TIMER1_COMPB s = false ->
   view s' = view s /\ releaseCount s' = 0 /\
   enabled TIMER1_COMPB s' = true /\ deadline TIMER1_COMPB s' = OCR1B + 1).
Proof.
  intros s s'. pose proof (quiet_steps tr boot quiet_boot) as Hq. split.
  - intros Hj Hl Hd Hr. exact (trial_start_latched j s Hq Hj Hl Hd Hr).
  - intros Hr. exact (trial_start_unlatched j s Hq Hr).
Qed.

(** ** The further properties at work on concrete runs *)


(** X2 at work: after [setup()], a held press, its release, and a tap of 60
    counts. *)
Lemma panel_button_debounced_witness :
  level (pad_of __panelButton (steps [] boot)) = HIGH /\
  enabled TIMER2_COMPA (steps [] boot) = false /\ (60 < 125)%nat /\
  (let s := steps [] boot in
   let held := steps [Wire __panelButton LOW; Period Timer2] s in
   let let_go := steps [Wire __panelButton HIGH; Period Timer2] held in
   let tapped := steps (Wire __panelButton LOW :: repeat (Clock Timer2) 60 ++
                        [Wire __panelButton HIGH; Period Timer2]) s in
   view held = arbitrate (PanelSettled true) (view s) /\
   view let_go = view held /\
   view tapped = view s).
Proof.
  split; [reflexivity | split; [reflexivity | split; [lia |]]].
  exact (panel_button_debounced [] 60 eq_refl eq_refl ltac:(lia)).
Defined.

(** X3 at work: the manual trigger and the panel button are pressed within
    the same debounce delay. *)
Lemma panel_press_lost_to_manual_debounce_witness :
  let s := steps [Wire __manualTrigger LOW; Wire __panelButton LOW] boot in
  enabled TIMER2_COMPA s = true /\ enabled TIMER2_COMPB s = true /\
  (let s' := step (Period Timer2) s in
   view s' = arbitrate (ManualSettled (negb (level (pad_of __manualTrigger s)))) (view s) /\
   draining s' = draining s /\
   enabled TIMER2_COMPB s' = false /\
   pad_of __panelButton s' = pad_of __panelButton s /\
   view (steps (repeat (Period Timer2) 3) s') = view s').
Proof.
  split; [reflexivity | split; [reflexivity |]].
  exact (panel_press_lost_to_manual_debounce
           [Wire __manualTrigger LOW; Wire __panelButton LOW] 3 eq_refl eq_refl).
Defined.

(** X4 at work: the trigger line goes high after [setup()]. *)
Lemma digital_edge_acts_at_once_witness :
  let s := steps [] boot in
  ddr (pad_of __digitalTrigger s) = false /\
  (let v := negb (level (pad_of __digitalTrigger s)) in
   let s' := step (Wire __digitalTrigger v) s in
   view s' = arbitrate (DigitalDecoded v) (view s) /\
   digitalTrigger s' = v /\
   valveOpen s' = manualTrigger s || v || draining s).
Proof. split; [reflexivity | exact (digital_edge_acts_at_once [] eq_refl)]. Defined.

(** X5 at work: a settled press of the manual trigger has opened the valve. *)
Lemma hit_level_ends_with_hold_delay_witness :
  let s := steps [Wire __manualTrigger LOW; Period Timer2] boot in
  output s = hitVoltage /\
  (let s' := step (Period Timer4) s in
   enabled TIMER4_COMPA s = true /\
   output s' = holdVoltage /\ valveOpen s' = true /\ enabled TIMER4_COMPA s' = false).
Proof.
  split; [reflexivity |].
  exact (hit_level_ends_with_hold_delay [Wire __manualTrigger LOW; Period Timer2] eq_refl).
Defined.

(** X6 at work: the settled press that opens the valve, and the digital
    trigger joining the manual trigger on a valve that is at the hold level. *)
Lemma hit_level_only_on_opening_witness :
  (let s := run manual_edge_settling boot in
   let s' := act (Serve TIMER2_COMPA) s in
   output s' = hitVoltage /\ (output s = hitVoltage \/ valveOpen s = false)) /\
  (let s := run (hit_phase_over ++ [Serve TIMER4_COMPA; Wire __digitalTrigger HIGH]) boot in
   let s' := act (Serve INT5) s in
   output s = holdVoltage /\ valveOpen s' = true /\ output s' = holdVoltage).
Proof.
  split.
  - split; [reflexivity |].
    exact (proj1 (hit_level_only_on_opening manual_edge_settling (Serve TIMER2_COMPA))
             eq_refl).
  - split; [reflexivity | split; [reflexivity |]].
    exact (proj2 (hit_level_only_on_opening
                    (hit_phase_over ++ [Serve TIMER4_COMPA; Wire __digitalTrigger HIGH])
                    (Serve INT5)) eq_refl eq_refl).
Defined.

(** X7 at work: the manual trigger has opened the valve. *)
Lemma lamp_mirrors_valve_witness :
  let tr := manual_edge_settling ++ [Serve TIMER2_COMPA] in
  forallb (fun a => negb (writes_LED a)) tr = true /\
  valveOpen (run tr boot) = true /\ lamp (run tr boot) = valveOpen (run tr boot).
Proof.
  split; [reflexivity | split; [reflexivity |]].
  exact (lamp_mirrors_valve (manual_edge_settling ++ [Serve TIMER2_COMPA]) eq_refl).
Defined.

(** X8 at work: a drain session that has seen one coarse tick. *)
Lemma drain_counter_bounded_witness :
  let s := run (panel_edge_settling ++ [Serve TIMER2_COMPB] ++ coarse_tick ++
                [Serve TIMER1_COMPA]) boot in
  draining s = true /\ 0 <= drainCycles s <= maxDrainCycles.
Proof.
  split; [reflexivity |].
  exact (drain_counter_bounded (panel_edge_settling ++ [Serve TIMER2_COMPB] ++ coarse_tick ++
                                [Serve TIMER1_COMPA]) eq_refl).
Defined.

(** X9 at work: a drain session started from the panel. *)
Lemma watchdog_armed_outside_calibration_witness :
  let tr := panel_edge_settling ++ [Serve TIMER2_COMPB] in
  forallb (fun a => negb (arms_sequencer a)) tr = true /\
  draining (run tr boot) = true /\ enabled TIMER1_COMPA (run tr boot) = true.
Proof.
  split; [reflexivity | split; [reflexivity |]].
  exact (watchdog_armed_outside_calibration (panel_edge_settling ++ [Serve TIMER2_COMPB])
           eq_refl eq_refl).
Defined.

(** X10 at work: a drain is started from the panel, trial 9 of the table is
    started and runs to its last firing; three hundred coarse ticks later the
    drain is still running. *)
Lemma sequence_end_leaves_drain_unguarded_witness :
  let tr0 := panel_edge_settling ++ [Serve TIMER2_COMPB] ++ start_trial 9 ++
             concat (repeat [Period Timer1; Serve TIMER1_COMPB] 10) ++ [Period Timer1] in
  let tr := concat (repeat [Period Timer1; Serve TIMER1_COMPA] 300) in
  let s := run tr0 boot in
  (draining s = true /\ pending TIMER1_COMPB s = true /\
   (uint (releaseCount s + 1) <? maxReleases s) = false /\
   forallb (fun a => negb (settles_panel a)) tr = true) /\
  (let s1 := act (Serve TIMER1_COMPB) s in
   let s2 := run tr s1 in
   sequenceComplete s1 = true /\ unguarded s1 /\ unguarded s2 /\ valveOpen s2 = true).
Proof.
  split; [repeat split; vm_compute; reflexivity |].
  exact (sequence_end_leaves_drain_unguarded
           (panel_edge_settling ++ [Serve TIMER2_COMPB] ++ start_trial 9 ++
            concat (repeat [Period Timer1; Serve TIMER1_COMPB] 10) ++ [Period Timer1])
           (concat (repeat [Period Timer1; Serve TIMER1_COMPA] 300))
           eq_refl eq_refl eq_refl eq_refl).
Defined.

(** X11 at work: a drain is running when trial 0 is started, and the panel
    button is pressed again; seventy seconds later the sequence is still
    unfinished. *)
Lemma drain_end_stalls_calibration_witness :
  let tr0 := panel_edge_settling ++ [Serve TIMER2_COMPB] ++ start_trial 0 ++
             [Wire __panelButton HIGH; Wire __panelButton LOW; Serve INT3] ++ debounce in
  let tr := concat (repeat [Period Timer1; Serve TIMER1_COMPB] 70) in
  let s := run tr0 boot in
  let s1 := act (Serve TIMER2_COMPB) s in
  (sequenceComplete s = false /\ draining s = true /\ draining s1 = false /\
   forallb (fun a' => negb (is_main a')) tr = true) /\
  (stalled s1 /\ stalled (run tr s1)).
Proof.
  split; [repeat split; vm_compute; reflexivity |].
  exact (drain_end_stalls_calibration
           (panel_edge_settling ++ [Serve TIMER2_COMPB] ++ start_trial 0 ++
            [Wire __panelButton HIGH; Wire __panelButton LOW; Serve INT3] ++ debounce)
           (concat (repeat [Period Timer1; Serve TIMER1_COMPB] 70))
           (Serve TIMER2_COMPB) eq_refl eq_refl eq_refl eq_refl).
Defined.

(** X13 at work: the settled press of the manual trigger sets its flag. *)
Lemma flags_have_one_writer_witness :
  let s := run manual_edge_settling boot in
  let a := Serve TIMER2_COMPA in
  manualTrigger (act a s) <> manualTrigger s /\ a = Serve TIMER2_COMPA.
Proof.
  assert (H : manualTrigger (act (Serve TIMER2_COMPA) (run manual_edge_settling boot)) <>
              manualTrigger (run manual_edge_settling boot)) by (vm_compute; discriminate).
  split; [exact H |].
  exact (proj1 (flags_have_one_writer (Serve TIMER2_COMPA) (run manual_edge_settling boot)) H).
Defined.

(** X14 at work: trial 0 has just been started, a second after [setup()]. *)
Lemma pulse_start_opens_valve_witness :
  let s := run (coarse_tick ++ start_trial 0) boot in
  (next s = Some TIMER1_COMPB /\
   (uint (releaseCount s + 1) <? maxReleases s) = true /\
   trigger_line s = LOW /\ digitalTrigger s = false) /\
  (let s1 := interrupt TIMER1_COMPB s in
   let s2 := interrupt INT5 s1 in
   next s1 = Some INT5 /\
   trigger_line s2 = HIGH /\ tickCounter s2 = 0 /\
   view s2 = arbitrate (DigitalDecoded true) (view s) /\
   digitalTrigger s2 = true /\ valveOpen s2 = true).
Proof.
  split; [repeat split; vm_compute; reflexivity |].
  exact (pulse_start_opens_valve (run (coarse_tick ++ start_trial 0) boot)
           eq_refl eq_refl eq_refl eq_refl).
Defined.

(** X15 at work: the first pulse of trial 0 after 41 firings of the 1 kHz
    routine. *)
Lemma pulse_end_releases_valve_witness :
  let s := run (coarse_tick ++ start_trial 0 ++ [Serve TIMER1_COMPB; Serve INT5] ++
                concat (repeat [Period Timer5; Serve TIMER5_COMPA] 41) ++
                [Period Timer5]) boot in
  (next s = Some TIMER5_COMPA /\ (tickCounter s >? maxTicks s) = true /\
   ddr (pad_of __digitalTrigger s) = true /\ trigger_line s = HIGH /\
   digitalTrigger s = true) /\
  (let s1 := interrupt TIMER5_COMPA s in
   let s2 := interrupt INT5 s1 in
   next s1 = Some INT5 /\
   trigger_line s2 = LOW /\ enabled TIMER5_COMPA s2 = false /\
   view s2 = arbitrate (DigitalDecoded false) (view s) /\
   digitalTrigger s2 = false).
Proof.
  split; [repeat split; vm_compute; reflexivity |].
  exact (pulse_end_releases_valve
           (run (coarse_tick ++ start_trial 0 ++ [Serve TIMER1_COMPB; Serve INT5] ++
                 concat (repeat [Period Timer5; Serve TIMER5_COMPA] 41) ++
                 [Period Timer5]) boot)
           eq_refl eq_refl eq_refl eq_refl eq_refl).
Defined.

(** X16 at work: both triggers asserted and the panel button pressed at
    power-on, and fifty milliseconds of idle time. *)
Lemma idle_machine_stays_closed_witness :
  let tr := milliseconds 50 1 in
  forallb ticks_only tr = true /\
  (let s := steps tr (setup (power_up LOW HIGH LOW)) in
   view s = Arbiter false false false false 0 0 /\ lamp s = LOW /\ quiet s /\
   (forall v, timer_of v <> None -> enabled v s = false)).
Proof.
  split; [reflexivity |].
  exact (idle_machine_stays_closed LOW HIGH LOW (milliseconds 50 1) eq_refl).
Defined.


(** X19 at work: trial 3 started a second after [setup()], with a compare
    match latched, and started right after [setup()], with none. *)
Lemma trial_starts_at_once_if_latched_witness :
  (let s := steps coarse_tick boot in
   let s' := steps (start_trial 3) s in
   ((3 < 10)%nat /\ trigger_line s = LOW /\ digitalTrigger s = false /\
    requested TIMER1_COMPB s = true) /\
   (releaseCount s' = 1 /\ sequenceComplete s' = false /\ tickCounter s' = 0 /\
    trigger_line s' = HIGH /\ digitalTrigger s' = true /\ valveOpen s' = true /\
    view s' = arbitrate (DigitalDecoded true) (view s))) /\
  (let s := steps [] boot in
   let s' := steps (start_trial 3) s in
   requested TIMER1_COMPB s = false /\
   (view s' = view s /\ releaseCount s' = 0 /\
    enabled TIMER1_COMPB s' = true /\ deadline TIMER1_COMPB s' = OCR1B + 1)).
Proof.
  split.
  - split; [repeat split; lia |].
    exact (proj1 (trial_starts_at_once_if_latched coarse_tick 3)
             ltac:(lia) eq_refl eq_refl eq_refl).
  - split; [reflexivity |].
    exact (proj2 (trial_starts_at_once_if_latched [] 3) eq_refl).
Defined.

